(** * Locality index generator (generator/locality_index_generator.cpp)

    A shallow embedding of the feature-to-index pipeline: the per-feature
    [LocalityObjectBuilder], the scatter/gather driver
    [GenerateLocalityIndex], the allow-list parser [ParseNodes] and the
    geo-objects entry point [GenerateGeoObjectsIndex].

    The translation unit only orchestrates collaborators declared in other
    headers (feature builder, geometry holder, simplifier, convex hull,
    index builders, file helpers).  Those are gathered in the interface
    [Env]; every definition below is written against that interface, and a
    small executable instance ([Ref.env]) is provided to run the model on
    concrete inputs. *)

From Stdlib Require Import Ascii String.
From stdpp Require Import base option list gmap strings sorting.

Set Default Proof Using "Type".

(** ** Plain data *)

(** [feature::GeomType].  The [switch] in the builder has a [default:
    UNREACHABLE()] arm, which is kept reachable in the model through
    [Undefined]. *)
Inductive GeomType := Point | Line | Area | Undefined.

Global Instance GeomType_eq_dec : EqDecision GeomType.
Proof. solve_decision. Defined.

Inductive LogLevel := LINFO | LWARNING | LERROR.

(** A decimal literal [mant * 10 ^ exp]; [1e-16] is [Decimal 1 (-16)]. *)
Record Decimal := mkDecimal { dec_mant : Z; dec_exp : Z }.

Definition hull_eps : Decimal := mkDecimal 1 (-16).

(** [std::numeric_limits<uint32_t>::max()]. *)
Definition UINT32_MAX : N := 4294967295%N.

(** A covering entry is a (cell id, object id) pair. *)
Definition CoveringEntry : Type := N * N.
Abbreviation LocalitiesCovering := (list CoveringEntry).

(** Outcome of code that can hit a [CHECK]/[UNREACHABLE] (process abort). *)
Inductive Checked (A : Type) :=
| Ok (a : A)
| CheckFailed.
Arguments Ok {A} a.
Arguments CheckFailed {A}.

(** How a call ends: a normal return, a C++ exception leaving the call, or
    an abort of the process ([CHECK], [UNREACHABLE]). *)
Inductive Outcome (A : Type) :=
| Returned (a : A)
| Thrown
| Aborted.
Arguments Returned {A} a.
Arguments Thrown {A}.
Arguments Aborted {A}.

(** ** Collaborators *)

Class Env := {
  PointD : Type;
  FeatureBuilder : Type;
  GeometryHolder : Type;
  DataHeader : Type;
  GeometryCodingParams : Type;
  GeoObjectId : Type;
  IdType : Type;

  (* feature::FeatureBuilder *)
  GetGeomType : FeatureBuilder → GeomType;
  GetKeyPoint : FeatureBuilder → PointD;
  GetGeometry : FeatureBuilder → list (list PointD);
  GetMostGenericOsmId : FeatureBuilder → GeoObjectId;

  (* base::GeoObjectId *)
  GetEncodedId : GeoObjectId → N;
  GetSerialId : GeoObjectId → N;
  GetType : GeoObjectId → IdType;

  (* feature::DataHeader, serial::GeometryCodingParams, scales *)
  NewDataHeader : DataHeader;
  DefaultGeometryCodingParams : GeometryCodingParams;
  SetGeometryCodingParams : GeometryCodingParams → DataHeader → DataHeader;
  SetScales : list Z → DataHeader → DataHeader;
  GetUpperScale : Z;

  (* generator::GeometryHolder *)
  NewGeometryHolder : FeatureBuilder → DataHeader → N → GeometryHolder;
  GetSourcePoints : GeometryHolder → list PointD;
  AddPoints : list PointD → Z → GeometryHolder → GeometryHolder;
  NeedProcessTriangles : GeometryHolder → bool;
  (* the argument is taken by mutable reference: the call hands back the
     vector as it leaves it *)
  TryToMakeStrip : list PointD → GeometryHolder → bool * list PointD * GeometryHolder;
  SetInner : GeometryHolder → GeometryHolder;
  m_innerPts : GeometryHolder → list PointD;
  m_innerTrg : GeometryHolder → list PointD;

  (* feature::SimplifyPoints, m2::ConvexHull, serial::StripToTriangles *)
  SimplifyPoints : Z → list PointD → list PointD;
  ConvexHull : list PointD → Decimal → list PointD;
  StripToTriangles : nat → list PointD → list PointD;

  (* geo_objects::GeoObjectsFilter, streets::StreetsFilter *)
  IsBuilding : FeatureBuilder → bool;
  HasHouse : FeatureBuilder → bool;
  IsPoi : FeatureBuilder → bool;
  IsStreet : FeatureBuilder → bool;

  (* strings::to_uint64, base::GetDirectory, base::JoinPath, defines.hpp *)
  to_uint64 : string → option N;
  GetDirectory : string → string;
  JoinPath : string → string → string;
  DATA_FILE_EXTENSION_TMP : string;
}.

Section Builder.
Context `{E : Env}.

(** Modelled from the spec: [FeatureBuilder::IsLine] and
    [FeatureBuilder::IsArea] (generator/feature_builder.hpp) test the
    geometry kind of the feature. *)
Definition IsLine (fb : FeatureBuilder) : bool := bool_decide (GetGeomType fb = Line).
Definition IsArea (fb : FeatureBuilder) : bool := bool_decide (GetGeomType fb = Area).

(** Modelled from the spec: [indexer::LocalityObject]
    (indexer/locality_object.hpp) is an id together with exactly one of a
    point list or a triangle list. *)
Inductive Geometry :=
| Points (pts : list PointD)
| Triangles (trg : list PointD).

Record LocalityObject := mkLocalityObject {
  obj_id : N;
  obj_geometry : Geometry;
}.

Definition SetId (id : N) (o : LocalityObject) : LocalityObject :=
  mkLocalityObject id (obj_geometry o).
Definition SetPoints (pts : list PointD) (o : LocalityObject) : LocalityObject :=
  mkLocalityObject (obj_id o) (Points pts).
Definition SetTriangles (trg : list PointD) (o : LocalityObject) : LocalityObject :=
  mkLocalityObject (obj_id o) (Triangles trg).

Inductive LogMessage :=
| MsgText (text : string)
| MsgTrianglesError (serialId : N) (type : IdType) (points hull : list PointD)
| MsgFinishIndex (outPath : string)
| MsgCouldNotOpen (nodesFile : string)
| MsgNodeParseError (lineNumber : nat) (line : string).

Definition LogEntry : Type := LogLevel * LogMessage.

(** *** class LocalityObjectBuilder *)

Record LocalityObjectBuilder := mkBuilder {
  m_header : DataHeader;
  m_localityObject : LocalityObject;
  m_pointsBuffer : list PointD;
}.

(** The constructor. *)
Definition NewLocalityObjectBuilder : LocalityObjectBuilder :=
  mkBuilder
    (SetScales [GetUpperScale] (SetGeometryCodingParams DefaultGeometryCodingParams NewDataHeader))
    (mkLocalityObject 0%N (Points []))
    [].

(** [points.pop_back()]. *)
Definition pop_back {A} (l : list A) : list A := removelast l.

(** The flattened outer points handed to the stripper: the simplified ring
    without its closing point, or all rings when there are several. *)
Definition area_points (fb : FeatureBuilder) (points : list PointD) : list PointD :=
  let points := pop_back points in
  let polys := GetGeometry fb in
  if bool_decide (length polys ≠ 1) then concat polys else points.

(** [if (points.size() > 2) { ... }] of [MakeGeometryHolder]: the direct
    strip attempt and the retry on the convex hull. *)
Definition strip_or_hull (fb : FeatureBuilder) (points : list PointD) (holder : GeometryHolder)
  : list LogEntry * option GeometryHolder :=
  if bool_decide (2 < length points) then
    let '(ok, points, holder) := TryToMakeStrip points holder in
    if ok then ([], Some holder)
    else
      let hull := ConvexHull points hull_eps in
      let hullPoints := hull in
      let holder := SetInner holder in
      let id := GetMostGenericOsmId fb in
      let '(ok, _, holder) := TryToMakeStrip hullPoints holder in
      if ok then ([], Some holder)
      else ([(LWARNING, MsgTrianglesError (GetSerialId id) (GetType id) points hull)], None)
  else ([], Some holder).

Definition MakeGeometryHolder (b : LocalityObjectBuilder) (fb : FeatureBuilder)
  : list LogEntry * option GeometryHolder :=
  let holder := NewGeometryHolder fb (m_header b) UINT32_MAX in
  let points := SimplifyPoints GetUpperScale (GetSourcePoints holder) in
  if bool_decide (points = []) then ([], None)
  else
    let holder := if IsLine fb then AddPoints points 0 holder else holder in
    if IsArea fb && NeedProcessTriangles holder then
      match strip_or_hull fb (area_points fb points) holder with
      | (log, None) => (log, None)
      | (log, Some holder) =>
          if NeedProcessTriangles holder then (log, None) else (log, Some holder)
      end
    else ([], Some holder).

(** [LocalityObjectBuilder::operator()]: the builder is mutated in place and
    a reference to its single [m_localityObject] slot is handed back. *)
Definition Build (b : LocalityObjectBuilder) (fb : FeatureBuilder)
  : list LogEntry * Checked (LocalityObjectBuilder * option LocalityObject) :=
  let '(log, geometryHolder) := MakeGeometryHolder b fb in
  match geometryHolder with
  | None => (log, Ok (b, None))
  | Some data =>
      let encodedId := GetEncodedId (GetMostGenericOsmId fb) in
      let obj := SetId encodedId (m_localityObject b) in
      match GetGeomType fb with
      | Point =>
          let obj := SetPoints [GetKeyPoint fb] obj in
          (log, Ok (mkBuilder (m_header b) obj (m_pointsBuffer b), Some obj))
      | Line =>
          let obj := SetPoints (m_innerPts data) obj in
          (log, Ok (mkBuilder (m_header b) obj (m_pointsBuffer b), Some obj))
      | Area =>
          if bool_decide (3 ≤ length (m_innerTrg data)) then
            let pointsBuffer := [] ++ m_innerTrg data in
            let triangles := StripToTriangles (length pointsBuffer) pointsBuffer in
            let obj := SetTriangles triangles obj in
            (log, Ok (mkBuilder (m_header b) obj pointsBuffer, Some obj))
          else (log, CheckFailed)
      | Undefined => (log, CheckFailed)
      end
  end.

End Builder.

(** ** The world the pipeline runs in *)

Section World.
Context `{E : Env}.

Inductive Event :=
| EvLog (e : LogEntry)
| EvReadFeatures (file : string)
| EvAppendFile (from to : string)
| EvRemoveFile (file : string).

(** Feature files are represented by the sequence of features they
    deserialize to, text files by their characters. *)
Record World := mkWorld {
  w_features : gmap string (list FeatureBuilder);
  w_text : gmap string string;
  w_trace : list Event;
}.

Definition M (A : Type) : Type := World → Outcome A * World.

Definition ret {A} (a : A) : M A := λ w, (Returned a, w).

Definition bind {A B} (m : M A) (k : A → M B) : M B := λ w,
  match m w with
  | (Returned a, w') => k a w'
  | (Thrown, w') => (Thrown, w')
  | (Aborted, w') => (Aborted, w')
  end.

Definition emit (ev : Event) (w : World) : World :=
  mkWorld (w_features w) (w_text w) (w_trace w ++ [ev]).

Definition LOG (lvl : LogLevel) (msg : LogMessage) : M unit :=
  λ w, (Returned tt, emit (EvLog (lvl, msg)) w).

Definition write_log (log : list LogEntry) (w : World) : World :=
  mkWorld (w_features w) (w_text w) (w_trace w ++ (EvLog <$> log)).

(** The [IndexBuilder] template parameter of [GenerateLocalityIndex]. *)
Class IndexBuilder := {
  Cover : LocalityObject → LocalitiesCovering → LocalitiesCovering;
  BuildCoveringIndex : LocalitiesCovering → string → M bool;
}.

End World.

Notation "x <- m ;; k" := (bind m (λ x, k))
  (at level 100, m at next level, right associativity, only parsing).
Notation "m ;;; k" := (bind m (λ _, k))
  (at level 100, right associativity, only parsing).

(** ** Text helpers used by [ParseNodes] *)

Definition newline : ascii := Ascii.ascii_of_nat 10.

(** The lines successive [std::getline] calls deliver: a final line needs
    no terminator, and the terminator of the last line opens no new one. *)
Fixpoint getlines (s : string) : list string :=
  match s with
  | EmptyString => []
  | String c s' =>
      if bool_decide (c = newline) then EmptyString :: getlines s'
      else match getlines s' with
           | [] => [String c EmptyString]
           | l :: ls => String c l :: ls
           end
  end.

Definition is_delim (delims : list ascii) (c : ascii) : bool :=
  bool_decide (c ∈ delims).

Fixpoint take_token (delims : list ascii) (s : string) : string :=
  match s with
  | EmptyString => EmptyString
  | String c s' =>
      if is_delim delims c then EmptyString else String c (take_token delims s')
  end.

(** Modelled from the spec: [strings::SimpleTokenizer]
    (base/string_utils.hpp) walks the maximal runs of non-delimiter
    characters; this is its first token, if the line has one ([!iter]
    otherwise). *)
Fixpoint first_token (delims : list ascii) (s : string) : option string :=
  match s with
  | EmptyString => None
  | String c s' =>
      if is_delim delims c then first_token delims s'
      else Some (String c (take_token delims s'))
  end.

(** The delimiter string [" "] passed by [ParseNodes]. *)
Definition node_delims : list ascii := [" "%char].

(** ** The pipeline *)

Section Pipeline.
Context `{E : Env} {IB : IndexBuilder}.

(** The [processor] closure of [makeProcessor]: its captured builder and
    covering are the state. *)
Definition processor (featureFilter : FeatureBuilder → bool)
    (st : LocalityObjectBuilder * LocalitiesCovering) (fb : FeatureBuilder)
  : list LogEntry * Checked (LocalityObjectBuilder * LocalitiesCovering) :=
  let '(localityObjectBuilder, covering) := st in
  if negb (featureFilter fb) then ([], Ok st)
  else
    match Build localityObjectBuilder fb with
    | (log, Ok (localityObjectBuilder, Some localityObject)) =>
        (log, Ok (localityObjectBuilder, Cover localityObject covering))
    | (log, Ok (localityObjectBuilder, None)) => (log, Ok (localityObjectBuilder, covering))
    | (log, CheckFailed) => (log, CheckFailed)
    end.

(** One processor fed the features it is handed, in order. *)
Fixpoint feed (featureFilter : FeatureBuilder → bool)
    (st : LocalityObjectBuilder * LocalitiesCovering) (fbs : list FeatureBuilder)
  : list LogEntry * Checked (LocalityObjectBuilder * LocalitiesCovering) :=
  match fbs with
  | [] => ([], Ok st)
  | fb :: rest =>
      match processor featureFilter st fb with
      | (log, Ok st') =>
          let '(log', r) := feed featureFilter st' rest in (log ++ log', r)
      | (log, CheckFailed) => (log, CheckFailed)
      end
  end.

(** [makeProcessor] followed by the run of the processor it made: a fresh
    covering part, a fresh builder, and the part as the run leaves it. *)
Definition run_processor (featureFilter : FeatureBuilder → bool)
    (fbs : list FeatureBuilder) : list LogEntry * Checked LocalitiesCovering :=
  match feed featureFilter (NewLocalityObjectBuilder, []) fbs with
  | (log, Ok (_, covering)) => (log, Ok covering)
  | (log, CheckFailed) => (log, CheckFailed)
  end.

(** All parts, or the abort of the first processor that hit a check. *)
Fixpoint collect_parts (rs : list (Checked LocalitiesCovering)) : Checked (list LocalitiesCovering) :=
  match rs with
  | [] => Ok []
  | Ok part :: rs' =>
      match collect_parts rs' with
      | Ok parts => Ok (part :: parts)
      | CheckFailed => CheckFailed
      end
  | CheckFailed :: _ => CheckFailed
  end.

(** [coveringsParts] after every processor has run over its share. *)
Definition cover_parts (featureFilter : FeatureBuilder → bool)
    (shares : list (list FeatureBuilder)) : Checked (list LocalitiesCovering) :=
  collect_parts ((λ fbs, (run_processor featureFilter fbs).2) <$> shares).

(** The merge loop: parts are taken from the back of [coveringsParts] and
    appended to [localitiesCovering]. *)
Definition merge_coverings (coveringsParts : list LocalitiesCovering) : LocalitiesCovering :=
  fold_left (λ localitiesCovering part, localitiesCovering ++ part) (rev coveringsParts) [].

(** Modelled from the spec: [feature::ProcessParallelFromDatRawFormat]
    (generator/feature_builder.hpp) reads the feature stream of the file,
    partitions it into chunks and distributes them over the workers, each
    worker owning one processor made by [makeProcessor].  Which worker
    receives which features is decided at run time; [shares] is that
    decision.  A file that cannot be read ends the call with an
    exception. *)
Definition ProcessParallelFromDatRawFormat
    (shares : nat → nat → list FeatureBuilder → list (list FeatureBuilder))
    (threadsCount chunkFeaturesCount : nat) (featuresFile : string)
    (featureFilter : FeatureBuilder → bool) : M (list LocalitiesCovering) := λ w,
  match w_features w !! featuresFile with
  | None => (Thrown, w)
  | Some stream =>
      let w := emit (EvReadFeatures featuresFile) w in
      let runs := run_processor featureFilter <$> shares threadsCount chunkFeaturesCount stream in
      let w := write_log (concat (fst <$> runs)) w in
      match collect_parts (snd <$> runs) with
      | Ok coveringsParts => (Returned coveringsParts, w)
      | CheckFailed => (Aborted, w)
      end
  end.

Definition GenerateLocalityIndex
    (shares : nat → nat → list FeatureBuilder → list (list FeatureBuilder))
    (outPath featuresFile : string) (featureFilter : FeatureBuilder → bool)
    (threadsCount chunkFeaturesCount : nat) : M bool :=
  LOG LINFO (MsgText "Geometry cover features...") ;;;
  coveringsParts <- ProcessParallelFromDatRawFormat shares threadsCount chunkFeaturesCount
                      featuresFile featureFilter ;;
  LOG LINFO (MsgText "Finish features geometry covering") ;;;
  LOG LINFO (MsgText "Merge geometry coverings...") ;;;
  let localitiesCovering := merge_coverings coveringsParts in
  LOG LINFO (MsgText "Finish merging of geometry coverings") ;;;
  LOG LINFO (MsgText "Build locality index...") ;;;
  built <- BuildCoveringIndex localitiesCovering outPath ;;
  if negb built then ret false
  else
    LOG LINFO (MsgFinishIndex outPath) ;;;
    ret true.

(** *** ParseNodes *)

Definition node_parse_error (lineNumber : nat) (line : string) (nodeIds : gset N)
  : M (bool * gset N) :=
  LOG LERROR (MsgNodeParseError lineNumber line) ;;;
  ret (false, nodeIds).

(** The [while (getline(stream, line))] loop; [nodeIds] is the set passed
    by reference, returned as the loop leaves it. *)
Fixpoint ParseNodes_loop (lines : list string) (lineNumber : nat) (nodeIds : gset N)
  : M (bool * gset N) :=
  match lines with
  | [] => ret (true, nodeIds)
  | line :: rest =>
      match first_token node_delims line with
      | None => node_parse_error lineNumber line nodeIds
      | Some tok =>
          match to_uint64 tok with
          | None => node_parse_error lineNumber line nodeIds
          | Some nodeId => ParseNodes_loop rest (S lineNumber) ({[nodeId]} ∪ nodeIds)
          end
      end
  end.

Definition ParseNodes (nodesFile : string) (nodeIds : gset N) : M (bool * gset N) :=
  if bool_decide (nodesFile = EmptyString) then ret (true, nodeIds)
  else λ w,
    match w_text w !! nodesFile with
    | None => (LOG LERROR (MsgCouldNotOpen nodesFile) ;;; ret (false, nodeIds)) w
    | Some content => ParseNodes_loop (getlines content) 1 nodeIds w
    end.

(** *** File helpers *)

(** Modelled from the spec: [base::AppendFileToFile]
    (coding/internal/file_data.hpp) appends the content of the first file
    to the second one, creating it when needed; an unreadable source ends
    the call with an exception. *)
Definition AppendFileToFile (fromFilename toFilename : string) : M unit := λ w,
  match w_features w !! fromFilename with
  | None => (Thrown, w)
  | Some data =>
      let old := default [] (w_features w !! toFilename) in
      (Returned tt,
       mkWorld (<[toFilename := old ++ data]> (w_features w)) (w_text w)
               (w_trace w ++ [EvAppendFile fromFilename toFilename]))
  end.

(** Modelled from the spec: [Platform::RemoveFileIfExists]
    (platform/platform.hpp) leaves no file under the given name. *)
Definition RemoveFileIfExists (file : string) : M bool := λ w,
  (Returned true,
   mkWorld (delete file (w_features w)) (delete file (w_text w))
           (w_trace w ++ [EvRemoveFile file])).

(** [SCOPE_GUARD]: the guard's destructor runs when the scope is left by a
    return or by an exception; an abort of the process runs no destructor. *)
Definition SCOPE_GUARD {A B} (guard : M B) (body : M A) : M A := λ w,
  match body w with
  | (Aborted, w') => (Aborted, w')
  | (r, w') => (r, (guard w').2)
  end.

(** *** Entry points *)

Definition regionsFilter (fb : FeatureBuilder) : bool := IsArea fb.

Definition GenerateRegionsIndex
    (shares : nat → nat → list FeatureBuilder → list (list FeatureBuilder))
    (outPath featuresFile : string) (threadsCount : nat) : M bool :=
  GenerateLocalityIndex shares outPath featuresFile regionsFilter threadsCount 1.

(** The [featuresFilter] closure of [GenerateGeoObjectsIndex]. *)
Definition featuresFilter (nodeIds : gset N) (allowStreet allowPoi : bool)
    (fb : FeatureBuilder) : bool :=
  if IsBuilding fb || HasHouse fb then true
  else if allowStreet && IsStreet fb then true
  else if allowPoi && IsPoi fb then
    bool_decide (GetEncodedId (GetMostGenericOsmId fb) ∈ nodeIds)
  else false.

Definition combined_features_file (geoObjectsFeaturesFile : string) : string :=
  let featuresDirectory := GetDirectory geoObjectsFeaturesFile in
  JoinPath featuresDirectory ("geo_objects_and_streets" +:+ DATA_FILE_EXTENSION_TMP).

Definition GenerateGeoObjectsIndex
    (shares : nat → nat → list FeatureBuilder → list (list FeatureBuilder))
    (outPath geoObjectsFeaturesFile : string) (threadsCount : nat)
    (nodesFile streetsFeaturesFile : option string) : M bool :=
  parsed <- match nodesFile with
            | Some file => ParseNodes file ∅
            | None => ret (true, ∅)
            end ;;
  let '(parsedOk, nodeIds) := parsed in
  if negb parsedOk then ret false
  else
    let allowStreet := bool_decide (is_Some streetsFeaturesFile) in
    let allowPoi := negb (bool_decide (nodeIds = ∅)) in
    let featuresFilter := featuresFilter nodeIds allowStreet allowPoi in
    match streetsFeaturesFile with
    | None =>
        GenerateLocalityIndex shares outPath geoObjectsFeaturesFile featuresFilter
                              threadsCount 10
    | Some streetsFile =>
        let featuresFile := combined_features_file geoObjectsFeaturesFile in
        SCOPE_GUARD (RemoveFileIfExists featuresFile)
          (AppendFileToFile geoObjectsFeaturesFile featuresFile ;;;
           AppendFileToFile streetsFile featuresFile ;;;
           GenerateLocalityIndex shares outPath featuresFile featuresFilter
                                 threadsCount 100)
    end.

End Pipeline.

(** ** Partitioning a stream over workers *)

(** The features worker [w] receives when the stream is cut into [chunks]
    and chunk [i] is given to worker [owner !! i]; its chunks reach it in
    stream order. *)
Definition worker_share {A} (chunks : list (list A)) (owner : list nat) (w : nat) : list A :=
  concat (snd <$> filter (λ oc, oc.1 = w) (zip owner chunks)).

Definition distribute {A} (workers : nat) (chunks : list (list A)) (owner : list nat)
  : list (list A) :=
  worker_share chunks owner <$> seq 0 workers.

(** Consecutive chunks of [n] elements (the last one may be shorter). *)
Fixpoint chunk_list {A} (fuel n : nat) (l : list A) : list (list A) :=
  match fuel, l with
  | 0, _ | _, [] => []
  | S fuel', _ => take (Nat.max 1 n) l :: chunk_list fuel' n (drop (Nat.max 1 n) l)
  end.

(** ** Notions used to state the properties *)

Section Notions.
Context `{E : Env}.

(** Modelled from the spec: [serial::StripToTriangles]
    (coding/geometry_coding.hpp) turns a strip into the list of its
    triangles, each triangle being three points; a strip of [n] points has
    [n - 2] triangles. *)
Definition StripToTriangles_expands : Prop :=
  ∀ (n : nat) (strip : list PointD),
    3 ≤ n → n ≤ length strip → length (StripToTriangles n strip) = 3 * (n - 2).

(** Modelled from the spec: the covering function of the index builders
    (indexer/locality_index_builder.hpp) only appends to the accumulator it
    is given, and what it appends is determined by the object. *)
Definition Cover_appends (IB : IndexBuilder) : Prop :=
  ∀ (o : LocalityObject) (covering : LocalitiesCovering),
    Cover o covering = covering ++ Cover o [].

(** The holder as [MakeGeometryHolder] has it when the area branch is
    entered, and the points it then passes to the direct strip attempt. *)
Definition simplified_points (b : LocalityObjectBuilder) (fb : FeatureBuilder) : list PointD :=
  SimplifyPoints GetUpperScale (GetSourcePoints (NewGeometryHolder fb (m_header b) UINT32_MAX)).

Definition holder_before_strip (b : LocalityObjectBuilder) (fb : FeatureBuilder) : GeometryHolder :=
  let holder := NewGeometryHolder fb (m_header b) UINT32_MAX in
  if IsLine fb then AddPoints (simplified_points b fb) 0 holder else holder.

Definition direct_attempt (b : LocalityObjectBuilder) (fb : FeatureBuilder)
  : bool * list PointD * GeometryHolder :=
  TryToMakeStrip (area_points fb (simplified_points b fb)) (holder_before_strip b fb).

(** [points] as the failed direct attempt leaves it, and its hull. *)
Definition points_at_retry (b : LocalityObjectBuilder) (fb : FeatureBuilder) : list PointD :=
  (direct_attempt b fb).1.2.

Definition hull_at_retry (b : LocalityObjectBuilder) (fb : FeatureBuilder) : list PointD :=
  ConvexHull (points_at_retry b fb) hull_eps.

Definition hull_attempt (b : LocalityObjectBuilder) (fb : FeatureBuilder)
  : bool * list PointD * GeometryHolder :=
  TryToMakeStrip (hull_at_retry b fb) (SetInner (direct_attempt b fb).2).

(** The path condition of the [LOG(LWARNING, ...)] statement: the feature
    is an area whose triangles are still to be made, more than two points
    are left, and both the direct attempt and the retry on the hull fail. *)
Definition hull_retry_fails (b : LocalityObjectBuilder) (fb : FeatureBuilder) : bool :=
  negb (bool_decide (simplified_points b fb = []))
  && IsArea fb
  && NeedProcessTriangles (holder_before_strip b fb)
  && bool_decide (2 < length (area_points fb (simplified_points b fb)))
  && negb (direct_attempt b fb).1.1
  && negb (hull_attempt b fb).1.1.

Definition triangles_warning (b : LocalityObjectBuilder) (fb : FeatureBuilder) : LogEntry :=
  let id := GetMostGenericOsmId fb in
  (LWARNING,
   MsgTrianglesError (GetSerialId id) (GetType id) (points_at_retry b fb) (hull_at_retry b fb)).

(** What one feature adds to a covering, whatever came before it. *)
Definition entries {IB : IndexBuilder} (featureFilter : FeatureBuilder → bool)
    (fb : FeatureBuilder) : Checked LocalitiesCovering :=
  if negb (featureFilter fb) then Ok []
  else
    match (Build NewLocalityObjectBuilder fb).2 with
    | Ok (_, Some localityObject) => Ok (Cover localityObject [])
    | Ok (_, None) => Ok []
    | CheckFailed => CheckFailed
    end.

Fixpoint all_entries {IB : IndexBuilder} (featureFilter : FeatureBuilder → bool)
    (fbs : list FeatureBuilder) : Checked LocalitiesCovering :=
  match fbs with
  | [] => Ok []
  | fb :: rest =>
      match entries featureFilter fb, all_entries featureFilter rest with
      | Ok es, Ok es' => Ok (es ++ es')
      | _, _ => CheckFailed
      end
  end.

(** The covering handed to the index builder when the workers receive
    [shares]: the parts of all processors, merged. *)
Definition merged_covering {IB : IndexBuilder} (featureFilter : FeatureBuilder → bool)
    (shares : list (list FeatureBuilder)) : Checked LocalitiesCovering :=
  match cover_parts featureFilter shares with
  | Ok coveringsParts => Ok (merge_coverings coveringsParts)
  | CheckFailed => CheckFailed
  end.

(** Equality of coverings as multisets of entries (both runs abort, or
    both deliver and the entries agree up to order). *)
Definition same_covering (a b : Checked LocalitiesCovering) : Prop :=
  match a, b with
  | Ok x, Ok y => x ≡ₚ y
  | CheckFailed, CheckFailed => True
  | _, _ => False
  end.

(** The world when [GenerateLocalityIndex] starts covering, and when it
    calls the index builder after the processors left it as [w]. *)
Definition covering_started (w : World) : World :=
  emit (EvLog (LINFO, MsgText "Geometry cover features...")) w.

Definition merge_finished (w : World) : World :=
  emit (EvLog (LINFO, MsgText "Build locality index..."))
    (emit (EvLog (LINFO, MsgText "Finish merging of geometry coverings"))
       (emit (EvLog (LINFO, MsgText "Merge geometry coverings..."))
          (emit (EvLog (LINFO, MsgText "Finish features geometry covering")) w))).


(** A line [ParseNodes] stops at: no token, or a first token that is not
    an id. *)
Definition line_rejected (line : string) : bool :=
  match first_token node_delims line with
  | None => true
  | Some tok => bool_decide (to_uint64 tok = None)
  end.

Definition first_token_unparsable (line : string) : Prop :=
  ∃ tok, first_token node_delims line = Some tok ∧ to_uint64 tok = None.

(** The allow-list stage of [GenerateGeoObjectsIndex]. *)
Definition nodes_stage (nodesFile : option string) : M (bool * gset N) :=
  match nodesFile with
  | Some file => ParseNodes file ∅
  | None => ret (true, ∅)
  end.

(** The filter [GenerateGeoObjectsIndex] builds from the parsed ids and
    the presence of a streets file. *)
Definition geo_objects_filter (nodeIds : gset N) (streetsFeaturesFile : option string)
  : FeatureBuilder → bool :=
  featuresFilter nodeIds (bool_decide (is_Some streetsFeaturesFile))
                 (negb (bool_decide (nodeIds = ∅))).

End Notions.

(** ** A small executable instance of the collaborators

    Integer coordinates, a simplifier that keeps every point of a sequence
    of at least two points, a stripper that accepts the rings of non-zero
    signed area, Andrew's monotone chain as the hull, decimal ids.  It is
    only used to run the model on concrete inputs. *)
Module Ref.

Abbreviation Pt := (Z * Z)%type.

Record Feature := mkFeature {
  rf_geomType : GeomType;
  rf_keyPoint : Pt;
  rf_polygons : list (list Pt);
  rf_id : N;
  rf_building : bool;
  rf_house : bool;
  rf_poi : bool;
  rf_street : bool;
}.

Record Header := mkHeader { rh_coded : bool; rh_scales : list Z }.

Record Holder := mkHolder {
  gh_source : list Pt;
  gh_max : N;
  gh_ptsInner : bool;
  gh_trgInner : bool;
  gh_innerPts : list Pt;
  gh_innerTrg : list Pt;
}.

(** The source points of a fresh holder are the outer ring of the feature;
    a point feature has none. *)
Definition new_holder (fb : Feature) (h : Header) (maxTriangles : N) : Holder :=
  mkHolder (default [] (head (rf_polygons fb))) maxTriangles true true [] [].

Definition add_points (pts : list Pt) (scaleIndex : Z) (h : Holder) : Holder :=
  if gh_ptsInner h && bool_decide (N.of_nat (length pts) ≤ gh_max h)%N
  then mkHolder (gh_source h) (gh_max h) true (gh_trgInner h) pts (gh_innerTrg h)
  else mkHolder (gh_source h) (gh_max h) false (gh_trgInner h) (gh_innerPts h) (gh_innerTrg h).

Definition need_process_triangles (h : Holder) : bool :=
  negb (gh_trgInner h) || bool_decide (gh_innerTrg h = []).

Definition set_inner (h : Holder) : Holder :=
  mkHolder (gh_source h) (gh_max h) (gh_ptsInner h) true (gh_innerPts h) (gh_innerTrg h).

Definition cross (o a b : Pt) : Z :=
  ((a.1 - o.1) * (b.2 - o.2) - (a.2 - o.2) * (b.1 - o.1))%Z.

(** Twice the signed area of the ring (shoelace formula). *)
Fixpoint shoelace (first prev : Pt) (rest : list Pt) : Z :=
  match rest with
  | [] => (prev.1 * first.2 - first.1 * prev.2)%Z
  | p :: rest' => (prev.1 * p.2 - p.1 * prev.2 + shoelace first p rest')%Z
  end.

Definition area2 (pts : list Pt) : Z :=
  match pts with
  | [] => 0%Z
  | p :: rest => shoelace p p rest
  end.

Definition try_to_make_strip (pts : list Pt) (h : Holder) : bool * list Pt * Holder :=
  let off := mkHolder (gh_source h) (gh_max h) (gh_ptsInner h) false
                      (gh_innerPts h) (gh_innerTrg h) in
  let keep p := mkHolder (gh_source h) (gh_max h) (gh_ptsInner h) (gh_trgInner h)
                         (gh_innerPts h) p in
  if negb (gh_trgInner h) || bool_decide (gh_max h + 2 < N.of_nat (length pts))%N
  then (false, pts, off)
  else if bool_decide (0 < area2 pts)%Z then (true, pts, keep pts)
  else if bool_decide (area2 pts < 0)%Z then (true, rev pts, keep (rev pts))
  else (false, rev pts, h).

(** Modelled from the spec: [feature::SimplifyPoints] yields nothing for an
    input of fewer than two points (longer inputs are kept whole here). *)
Definition simplify_points (level : Z) (pts : list Pt) : list Pt :=
  if bool_decide (length pts < 2) then [] else pts.

Definition lex_le (p q : Pt) : Prop := (p.1 < q.1 ∨ (p.1 = q.1 ∧ p.2 ≤ q.2))%Z.

Global Instance lex_le_dec p q : Decision (lex_le p q).
Proof. unfold lex_le. apply _. Defined.

Fixpoint hull_push (stack : list Pt) (p : Pt) : list Pt :=
  match stack with
  | a :: rest =>
      match rest with
      | o :: _ => if bool_decide (cross o a p ≤ 0)%Z then hull_push rest p else p :: stack
      | [] => p :: stack
      end
  | [] => [p]
  end.

Definition half_hull (pts : list Pt) : list Pt :=
  rev (tail (fold_left hull_push pts [])).

Definition convex_hull (pts : list Pt) (eps : Decimal) : list Pt :=
  let sorted := merge_sort lex_le (remove_dups pts) in
  match sorted with
  | [] | [_] => sorted
  | _ => half_hull sorted ++ half_hull (rev sorted)
  end.

(** The triangles [(s i, s (i+1), s (i+2))] of the first [count] strip points. *)
Fixpoint strip_to_triangles (count : nat) (strip : list Pt) : list Pt :=
  match count, strip with
  | S count', a :: ((b :: c :: _) as rest) =>
      match count' with
      | S (S _) => a :: b :: c :: strip_to_triangles count' rest
      | _ => []
      end
  | _, _ => []
  end.

Definition digit_of (c : ascii) : option N :=
  let n := Ascii.N_of_ascii c in
  if bool_decide (48 ≤ n ∧ n ≤ 57)%N then Some (n - 48)%N else None.

Fixpoint parse_digits (acc : N) (s : string) : option N :=
  match s with
  | EmptyString => Some acc
  | String c s' =>
      match digit_of c with
      | Some d => parse_digits (acc * 10 + d)%N s'
      | None => None
      end
  end.

Definition parse_uint64 (s : string) : option N :=
  match s with
  | EmptyString => None
  | _ => match parse_digits 0%N s with
         | Some n => if bool_decide (n < 2 ^ 64)%N then Some n else None
         | None => None
         end
  end.

Fixpoint dir_of (s : string) : option string :=
  match s with
  | EmptyString => None
  | String c s' =>
      match dir_of s' with
      | Some d => Some (String c d)
      | None => if bool_decide (c = "/"%char) then Some EmptyString else None
      end
  end.

Global Instance env : Env := {|
  PointD := Pt;
  FeatureBuilder := Feature;
  GeometryHolder := Holder;
  DataHeader := Header;
  GeometryCodingParams := unit;
  GeoObjectId := N;
  IdType := N;
  GetGeomType := rf_geomType;
  GetKeyPoint := rf_keyPoint;
  GetGeometry := rf_polygons;
  GetMostGenericOsmId := rf_id;
  GetEncodedId := λ id, id;
  GetSerialId := λ id, (id `mod` 2 ^ 56)%N;
  GetType := λ id, (id `div` 2 ^ 56)%N;
  NewDataHeader := mkHeader false [];
  DefaultGeometryCodingParams := tt;
  SetGeometryCodingParams := λ _ h, mkHeader true (rh_scales h);
  SetScales := λ scales h, mkHeader (rh_coded h) scales;
  GetUpperScale := 17%Z;
  NewGeometryHolder := new_holder;
  GetSourcePoints := gh_source;
  AddPoints := add_points;
  NeedProcessTriangles := need_process_triangles;
  TryToMakeStrip := try_to_make_strip;
  SetInner := set_inner;
  m_innerPts := gh_innerPts;
  m_innerTrg := gh_innerTrg;
  SimplifyPoints := simplify_points;
  ConvexHull := convex_hull;
  StripToTriangles := strip_to_triangles;
  IsBuilding := rf_building;
  HasHouse := rf_house;
  IsPoi := rf_poi;
  IsStreet := rf_street;
  to_uint64 := parse_uint64;
  GetDirectory := λ s, default "." (dir_of s);
  JoinPath := λ d f, d +:+ "/" +:+ f;
  DATA_FILE_EXTENSION_TMP := ".tmp";
|}.

Definition cell_of (p : Pt) : N := (Z.to_N (Z.abs p.1) * 1024 + Z.to_N (Z.abs p.2))%N.

Definition cover (o : LocalityObject) (covering : LocalitiesCovering) : LocalitiesCovering :=
  covering ++ match obj_geometry o with
              | Points pts => (λ p, (cell_of p, obj_id o)) <$> pts
              | Triangles trg => (λ p, (cell_of p, obj_id o)) <$> trg
              end.

Global Instance index_builder : IndexBuilder := {|
  Cover := cover;
  BuildCoveringIndex := λ covering outPath w, (Returned (bool_decide (outPath ≠ EmptyString)), w);
|}.

(** Chunks of [chunkFeaturesCount] features dealt to the workers in turn. *)
Definition shares (threadsCount chunkFeaturesCount : nat) (stream : list Feature)
  : list (list Feature) :=
  let workers := Nat.max 1 threadsCount in
  let chunks := chunk_list (length stream) chunkFeaturesCount stream in
  distribute workers chunks ((λ i, i `mod` workers) <$> seq 0 (length chunks)).

(** Sample features and worlds. *)
Definition square : Feature :=
  mkFeature Area (1, 1)%Z [[(0, 0); (2, 0); (2, 2); (0, 2); (0, 0)]]%Z 1%N true false false false.
Definition collinear : Feature :=
  mkFeature Area (0, 0)%Z [[(0, 0); (1, 0); (2, 0); (3, 0); (0, 0)]]%Z 2%N true false false false.
Definition poi (id : N) : Feature :=
  mkFeature Point (5, 6)%Z [[]] id false false true false.
Definition road : Feature :=
  mkFeature Line (0, 0)%Z [[(0, 0); (1, 1); (2, 0)]]%Z 4%N false false false true.

Definition nodes_text : string :=
  "10" +:+ String newline ("abc" +:+ String newline "30").
Definition nodes_blank_text : string :=
  "10" +:+ String newline (" " +:+ String newline "30").

Definition world : World :=
  mkWorld {[ "data/geo.dat" := [square; collinear; poi 20]; "data/streets.dat" := [road] ]}
          {[ "nodes.txt" := nodes_text; "blank.txt" := nodes_blank_text ]}
          [].

End Ref.

(** ** The borders collector *)

(** The two collaborators of [BordersCollector] that live in other
    headers: the border serialisation of a feature into a buffer passed by
    reference (the buffer is returned as the call leaves it) and the
    variable-length encoding of a size. *)
Class BordersApi `{E : Env} := {
  SerializeBorderForIntermediate :
    GeometryCodingParams → list Byte.byte → FeatureBuilder → list Byte.byte;
  WriteVarUint : nat → list Byte.byte;
}.

Section Borders.
Context `{E : Env} {BA : BordersApi}.

(** [m_bordersWriter] is represented by the bytes written so far to the
    borders section of the container. *)
Record BordersCollector := mkBordersCollector {
  m_bordersWriter : list Byte.byte;
  m_buffer : list Byte.byte;
}.

Definition NewBordersCollector : BordersCollector := mkBordersCollector [] [].

Definition WriteFeatureData (bytes : list Byte.byte) (c : BordersCollector)
  : Checked BordersCollector :=
  let sz := length bytes in
  if bool_decide (sz ≠ 0) then
    Ok (mkBordersCollector (m_bordersWriter c ++ WriteVarUint sz ++ bytes) (m_buffer c))
  else CheckFailed.

Definition Collect (c : BordersCollector) (fb : FeatureBuilder) : Checked BordersCollector :=
  if IsArea fb then
    let buffer := SerializeBorderForIntermediate DefaultGeometryCodingParams [] fb in
    WriteFeatureData buffer (mkBordersCollector (m_bordersWriter c) buffer)
  else Ok c.

(** The traversal of [GenerateBorders]: [Collect] on every feature of the
    stream, in order.  A failed check stops the process; the bytes written
    until then are kept in the first component. *)
Fixpoint collect_stream (c : BordersCollector) (fbs : list FeatureBuilder)
  : list Byte.byte * Checked BordersCollector :=
  match fbs with
  | [] => (m_bordersWriter c, Ok c)
  | fb :: rest =>
      match Collect c fb with
      | Ok c' => collect_stream c' rest
      | CheckFailed => (m_bordersWriter c, CheckFailed)
      end
  end.

(** [GenerateBorders]: the outcome of the call and the bytes it has
    written to the borders section of [outPath].  An unreadable features
    file ends the call with an exception. *)
Definition GenerateBorders (outPath featuresFile : string) (w : World)
  : Outcome bool * list Byte.byte :=
  match w_features w !! featuresFile with
  | None => (Thrown, [])
  | Some stream =>
      match collect_stream NewBordersCollector stream with
      | (written, Ok _) => (Returned true, written)
      | (written, CheckFailed) => (Aborted, written)
      end
  end.

(** The record one area feature adds to the section. *)
Definition border_bytes (fb : FeatureBuilder) : list Byte.byte :=
  SerializeBorderForIntermediate DefaultGeometryCodingParams [] fb.

Definition border_record (fb : FeatureBuilder) : list Byte.byte :=
  WriteVarUint (length (border_bytes fb)) ++ border_bytes fb.

End Borders.

(** ** Further notions used to state properties *)

Fixpoint has_newline (s : string) : bool :=
  match s with
  | EmptyString => false
  | String c s' => bool_decide (c = newline) || has_newline s'
  end.

(** The text whose lines are [lines], every line terminated. *)
Fixpoint terminated (lines : list string) : string :=
  match lines with
  | [] => EmptyString
  | line :: rest => line +:+ String newline (terminated rest)
  end.

Section MoreNotions.
Context `{E : Env}.

(** The id [ParseNodes] reads on a line it accepts. *)
Definition line_id (line : string) : option N :=
  match first_token node_delims line with
  | Some tok => to_uint64 tok
  | None => None
  end.

Definition parsed_ids (lines : list string) : gset N :=
  list_to_set (omap line_id lines).

(** The diagnostics a processor writes for one feature. *)
Definition feature_warnings (featureFilter : FeatureBuilder → bool) (fb : FeatureBuilder)
  : list LogEntry :=
  if featureFilter fb && hull_retry_fails NewLocalityObjectBuilder fb
  then [triangles_warning NewLocalityObjectBuilder fb]
  else [].

End MoreNotions.

(** Sample data for the borders collector and the builder. *)
Module RefBorders.
Import Ref.

Definition byte_of (n : N) : Byte.byte := default Byte.x00 (Byte.of_N (n `mod` 256)%N).

Definition point_bytes (p : Pt) : list Byte.byte :=
  [byte_of (Z.to_N (Z.abs p.1)); byte_of (Z.to_N (Z.abs p.2))].

(** Base-128 digits, least significant first, all but the last flagged. *)
Fixpoint var_uint (fuel : nat) (n : N) : list Byte.byte :=
  match fuel with
  | 0 => []
  | S fuel' =>
      if bool_decide (n < 128)%N then [byte_of n]
      else byte_of (n `mod` 128 + 128) :: var_uint fuel' (n `div` 128)
  end.

Global Instance borders_api : BordersApi := {|
  SerializeBorderForIntermediate := λ _ buffer fb,
    buffer ++ flat_map point_bytes (default [] (head (rf_polygons fb)));
  WriteVarUint := λ n, var_uint 10 (N.of_nat n);
|}.

Definition sliver : Feature :=
  mkFeature Area (0, 0)%Z [[(0, 0); (1, 0); (0, 0)]]%Z 6%N true false false false.
Definition hollow : Feature :=
  mkFeature Area (0, 0)%Z [[]] 7%N false false false false.

Definition bowtie : Feature :=
  mkFeature Area (1, 1)%Z [[(0, 0); (2, 2); (2, 0); (0, 2); (0, 0)]]%Z 8%N
            true false false false.

Definition allow_text : string := terminated ["10"; "20 extra"; "30"].

Definition world_borders : World :=
  mkWorld {[ "data/geo.dat" := [square; road; sliver];
             "data/bad.dat" := [square; hollow; sliver] ]}
          {[ "allow.txt" := allow_text ]}
          [].

End RefBorders.

(** A world in which a file is left under the temporary name, and an
    index builder that refuses any covering naming object 99. *)
Module RefStale.
Import Ref.

Definition leftover : Feature :=
  mkFeature Area (10, 10)%Z [[(10, 10); (12, 10); (12, 12); (10, 12); (10, 10)]]%Z 99%N
            true false false false.

Definition world : World :=
  mkWorld (<["data/geo_objects_and_streets.tmp" := [leftover]]> (w_features Ref.world))
          (w_text Ref.world)
          [].

Definition index_builder : IndexBuilder := {|
  Cover := cover;
  BuildCoveringIndex := λ covering outPath w,
    (Returned (bool_decide (99%N ∉ covering.*2)), w);
|}.

End RefStale.

(** * Properties *)

(** ** The builder *)

Section BuilderFacts.
Context `{E : Env}.

Lemma MakeGeometryHolder_not_area b fb :
  GetGeomType fb ≠ Area →
  MakeGeometryHolder b fb =
    if bool_decide (simplified_points b fb = []) then ([], None)
    else ([], Some (holder_before_strip b fb)).
Proof.
  intros Hkind. unfold MakeGeometryHolder, simplified_points, holder_before_strip.
  case_bool_decide as Hpts; [done|].
  unfold IsArea. rewrite bool_decide_eq_false_2 by done. done.
Qed.

(** C2 (as the code has it): for a point feature the builder first asks
    for a geometry holder like for any other feature.  When the simplified
    source points are empty it hands back nothing and stays untouched;
    otherwise the object carries the encoded id and exactly the key point. *)
Theorem build_point_feature (b : LocalityObjectBuilder) (fb : FeatureBuilder) :
  GetGeomType fb = Point →
  Build b fb =
    if bool_decide (simplified_points b fb = []) then ([], Ok (b, None))
    else
      let obj := mkLocalityObject (GetEncodedId (GetMostGenericOsmId fb))
                                  (Points [GetKeyPoint fb]) in
      ([], Ok (mkBuilder (m_header b) obj (m_pointsBuffer b), Some obj)).
Proof.
  intros Hkind. unfold Build.
  rewrite MakeGeometryHolder_not_area by (rewrite Hkind; discriminate).
  case_bool_decide; [done|]. rewrite Hkind. done.
Qed.

(** C3: an object built from an area feature carries triangles, and their
    point count is three times a positive number of triangles. *)
Theorem area_object_triangles (b b' : LocalityObjectBuilder) (fb : FeatureBuilder)
    (log : list LogEntry) (obj : LocalityObject) :
  StripToTriangles_expands →
  GetGeomType fb = Area →
  Build b fb = (log, Ok (b', Some obj)) →
  ∃ (trg : list PointD) (k : nat),
    obj_geometry obj = Triangles trg ∧ 0 < k ∧ length trg = 3 * k ∧ trg ≠ [].
Proof.
  intros Hstrip Hkind. unfold Build.
  destruct (MakeGeometryHolder b fb) as [log0 [data|]]; [|intros [=]].
  rewrite Hkind. case_bool_decide as Hsize; [|intros [=]].
  intros [= _ _ <-]. simpl in *.
  eexists _, (length (m_innerTrg data) - 2). split; [done|].
  assert (Hlen : length (StripToTriangles (length (m_innerTrg data)) (m_innerTrg data))
                 = 3 * (length (m_innerTrg data) - 2)) by (apply Hstrip; lia).
  split; [lia|]. split; [done|].
  intros Hnil. rewrite Hnil in Hlen. simpl in Hlen. lia.
Qed.

Lemma strip_or_hull_retry_fails b fb :
  hull_retry_fails b fb = true →
  strip_or_hull fb (area_points fb (simplified_points b fb)) (holder_before_strip b fb)
  = ([triangles_warning b fb], None).
Proof.
  unfold hull_retry_fails. rewrite !andb_true_iff, !negb_true_iff.
  intros [[[[[_ _] _] Hlen] Hdirect] Hhull].
  apply bool_decide_eq_true_1 in Hlen.
  unfold strip_or_hull. rewrite bool_decide_eq_true_2 by done.
  unfold triangles_warning, hull_attempt, hull_at_retry, points_at_retry in *.
  unfold direct_attempt in *.
  destruct (TryToMakeStrip _ (holder_before_strip b fb)) as [[ok pts] holder].
  simpl in *. subst ok.
  destruct (TryToMakeStrip _ (SetInner holder)) as [[ok' pts'] holder'].
  simpl in *. subst ok'. done.
Qed.

Lemma MakeGeometryHolder_retry_fails b fb :
  hull_retry_fails b fb = true →
  MakeGeometryHolder b fb = ([triangles_warning b fb], None).
Proof.
  intros Hfail. pose proof (strip_or_hull_retry_fails b fb Hfail) as Hstrip.
  unfold hull_retry_fails in Hfail. rewrite !andb_true_iff, !negb_true_iff in Hfail.
  destruct Hfail as [[[[[Hpts Harea] Hneed] _] _] _].
  unfold MakeGeometryHolder.
  fold (simplified_points b fb). rewrite Hpts.
  fold (holder_before_strip b fb). rewrite Harea, Hneed. simpl.
  rewrite Hstrip. done.
Qed.

End BuilderFacts.

(** ** Processors and the merge *)

Section PipelineFacts.
Context `{E : Env} {IB : IndexBuilder}.

Local Arguments processor : simpl never.
Local Arguments entries : simpl never.
Local Arguments run_processor : simpl never.

Implicit Types (b : LocalityObjectBuilder) (fb : FeatureBuilder).
Implicit Types (featureFilter : FeatureBuilder → bool).
Implicit Types (covering : LocalitiesCovering).


Lemma MakeGeometryHolder_header b1 b2 fb :
  m_header b1 = m_header b2 → MakeGeometryHolder b1 fb = MakeGeometryHolder b2 fb.
Proof. intros Hh. unfold MakeGeometryHolder. rewrite Hh. done. Qed.

(** The object a call delivers is decided by the feature alone: the slot
    is overwritten, id and geometry. *)
Lemma Build_result_independent b1 b2 fb :
  m_header b1 = m_header b2 →
  match (Build b1 fb).2, (Build b2 fb).2 with
  | Ok (b1', r1), Ok (b2', r2) =>
      r1 = r2 ∧ m_header b1' = m_header b1 ∧ m_header b2' = m_header b2
  | CheckFailed, CheckFailed => True
  | _, _ => False
  end.
Proof.
  intros Hh. unfold Build.
  rewrite (MakeGeometryHolder_header b1 b2 fb Hh).
  destruct (MakeGeometryHolder b2 fb) as [log [data|]]; [|done].
  destruct (GetGeomType fb); simpl; try done.
  case_bool_decide; done.
Qed.

Lemma processor_entries featureFilter b covering fb :
  Cover_appends IB →
  m_header b = m_header NewLocalityObjectBuilder →
  match (processor featureFilter (b, covering) fb).2, entries featureFilter fb with
  | Ok (b', covering'), Ok es => m_header b' = m_header b ∧ covering' = covering ++ es
  | CheckFailed, CheckFailed => True
  | _, _ => False
  end.
Proof.
  intros Happ Hh. unfold processor, entries.
  destruct (featureFilter fb); simpl; [|by rewrite app_nil_r].
  pose proof (Build_result_independent b NewLocalityObjectBuilder fb Hh) as Hind.
  destruct (Build b fb) as [log [[b' [o|]]|]];
    destruct (Build NewLocalityObjectBuilder fb) as [log0 [[b0 [o0|]]|]];
    simpl in *; try done.
  - destruct Hind as ([= ->] & ? & _). split; [done|]. apply Happ.
  - by destruct Hind as ([=] & _).
  - by destruct Hind as ([=] & _).
  - destruct Hind as (_ & ? & _). by rewrite app_nil_r.
Qed.

Lemma feed_entries featureFilter (fbs : list FeatureBuilder) b covering :
  Cover_appends IB →
  m_header b = m_header NewLocalityObjectBuilder →
  match (feed featureFilter (b, covering) fbs).2, all_entries featureFilter fbs with
  | Ok (b', covering'), Ok es => m_header b' = m_header b ∧ covering' = covering ++ es
  | CheckFailed, CheckFailed => True
  | _, _ => False
  end.
Proof.
  intros Happ. revert b covering.
  induction fbs as [|fb rest IH]; intros b covering Hh; simpl.
  { by rewrite app_nil_r. }
  pose proof (processor_entries featureFilter b covering fb Happ Hh) as Hstep.
  destruct (processor featureFilter (b, covering) fb) as [log [[b1 covering1]|]];
    destruct (entries featureFilter fb) as [es|]; simpl in *; try done.
  destruct Hstep as [Hh1 ->].
  specialize (IH b1 (covering ++ es)). rewrite Hh1 in IH. specialize (IH Hh).
  destruct (feed featureFilter (b1, covering ++ es) rest) as [log' [[b2 covering2]|]];
    destruct (all_entries featureFilter rest) as [es'|]; simpl in *; try done.
  destruct IH as [-> ->]. by rewrite app_assoc.
Qed.

Lemma run_processor_entries featureFilter (fbs : list FeatureBuilder) :
  Cover_appends IB →
  (run_processor featureFilter fbs).2 = all_entries featureFilter fbs.
Proof.
  intros Happ. unfold run_processor.
  pose proof (feed_entries featureFilter fbs NewLocalityObjectBuilder [] Happ eq_refl) as Hfeed.
  destruct (feed featureFilter (NewLocalityObjectBuilder, []) fbs) as [log [[b' covering']|]];
    destruct (all_entries featureFilter fbs) as [es|]; simpl in *; try done.
  by destruct Hfeed as [_ ->].
Qed.

Lemma all_entries_app featureFilter (l1 l2 : list FeatureBuilder) :
  all_entries featureFilter (l1 ++ l2) =
    match all_entries featureFilter l1, all_entries featureFilter l2 with
    | Ok es1, Ok es2 => Ok (es1 ++ es2)
    | _, _ => CheckFailed
    end.
Proof.
  induction l1 as [|fb l1 IH]; simpl.
  { by destruct (all_entries featureFilter l2). }
  rewrite IH.
  destruct (entries featureFilter fb), (all_entries featureFilter l1),
    (all_entries featureFilter l2); simpl; try done.
  by rewrite app_assoc.
Qed.

Lemma same_covering_trans (x y z : Checked LocalitiesCovering) :
  same_covering x y → same_covering y z → same_covering x z.
Proof.
  destruct x, y, z; simpl; try done. intros -> ->. done.
Qed.

Lemma all_entries_Permutation featureFilter (l1 l2 : list FeatureBuilder) :
  l1 ≡ₚ l2 → same_covering (all_entries featureFilter l1) (all_entries featureFilter l2).
Proof.
  induction 1 as [|fb l1 l2 _ IH|fb1 fb2 l|l1 l2 l3 _ IH1 _ IH2]; simpl.
  - done.
  - destruct (entries featureFilter fb), (all_entries featureFilter l1),
      (all_entries featureFilter l2); simpl in *; try done.
    by rewrite IH.
  - destruct (entries featureFilter fb1), (entries featureFilter fb2),
      (all_entries featureFilter l); simpl; try done.
    rewrite !app_assoc. by rewrite (Permutation_app_comm a0 a).
  - by eapply same_covering_trans.
Qed.

Lemma merge_coverings_cons (part : LocalitiesCovering) (parts : list LocalitiesCovering) :
  merge_coverings (part :: parts) = merge_coverings parts ++ part.
Proof. unfold merge_coverings. simpl. by rewrite fold_left_app. Qed.

Lemma merged_covering_all_entries featureFilter (shares : list (list FeatureBuilder)) :
  Cover_appends IB →
  same_covering (merged_covering featureFilter shares)
                (all_entries featureFilter (concat shares)).
Proof.
  intros Happ. unfold merged_covering, cover_parts.
  induction shares as [|share shares IH]; simpl; [done|].
  rewrite run_processor_entries by done. rewrite all_entries_app.
  destruct (all_entries featureFilter share) as [es|]; simpl; [|done].
  destruct (collect_parts _) as [parts|];
    destruct (all_entries featureFilter (concat shares)) as [es'|]; simpl in *; try done.
  rewrite merge_coverings_cons. rewrite IH. apply Permutation_app_comm.
Qed.

End PipelineFacts.

(** ** Distributing chunks keeps every feature exactly once *)

Section Distribution.
Context {A : Type}.
Implicit Types (chunks : list (list A)) (owner : list nat).

Lemma worker_share_nil owner w : worker_share (A:=A) [] owner w = [].
Proof. unfold worker_share. by destruct owner. Qed.

Lemma worker_share_cons (c : list A) chunks o owner w :
  worker_share (c :: chunks) (o :: owner) w
  = (if decide (o = w) then c else []) ++ worker_share chunks owner w.
Proof.
  unfold worker_share. simpl. rewrite filter_cons. simpl.
  case_decide; done.
Qed.

Lemma concat_fmap_app_Permutation {B} (f g : B → list A) (l : list B) :
  concat ((λ x, f x ++ g x) <$> l) ≡ₚ concat (f <$> l) ++ concat (g <$> l).
Proof.
  induction l as [|x l IH]; simpl; [done|].
  rewrite IH, <- !app_assoc. apply Permutation_app_head.
  rewrite !app_assoc. apply Permutation_app_tail, Permutation_app_comm.
Qed.

Lemma concat_fmap_nil {B} (l : list B) : concat ((λ _, @nil A) <$> l) = [].
Proof. induction l; simpl; done. Qed.

Lemma concat_other_owner (c : list A) (o s n : nat) :
  o < s → concat ((λ w, if decide (o = w) then c else []) <$> seq s n) = [].
Proof.
  revert s. induction n as [|n IH]; intros s Hlt; simpl; [done|].
  rewrite decide_False by lia. simpl. apply IH. lia.
Qed.

Lemma concat_single_owner (c : list A) (o s n : nat) :
  s ≤ o < s + n → concat ((λ w, if decide (o = w) then c else []) <$> seq s n) = c.
Proof.
  revert s. induction n as [|n IH]; intros s Hin; simpl; [lia|].
  destruct (decide (o = s)) as [->|Hne].
  - rewrite concat_other_owner by lia. apply app_nil_r.
  - simpl. apply IH. lia.
Qed.

Lemma distribute_Permutation (workers : nat) chunks owner :
  length owner = length chunks →
  Forall (λ w, w < workers) owner →
  concat (distribute workers chunks owner) ≡ₚ concat chunks.
Proof.
  unfold distribute. revert owner.
  induction chunks as [|c chunks IH]; intros owner Hlen Hown.
  { erewrite list_fmap_ext; [apply reflexive_eq, concat_fmap_nil|].
    intros _ w _. apply worker_share_nil. }
  destruct owner as [|o owner]; [done|].
  apply Forall_cons in Hown as [Ho Hown]. simpl in Hlen.
  erewrite list_fmap_ext; [|intros _ w _; apply worker_share_cons].
  rewrite concat_fmap_app_Permutation.
  rewrite concat_single_owner by lia. simpl.
  apply Permutation_app_head, IH; [lia|done].
Qed.

End Distribution.

Section MergeCorrectness.
Context `{E : Env} {IB : IndexBuilder}.

(** C1: whatever way the stream is cut into chunks and the chunks are
    given to the workers, the covering merged from the parts of all
    processors holds the same entries, with the same multiplicities, as the
    covering a single processor is left with after the whole stream in one
    pass (and the one run aborts exactly when the other does). *)
Theorem merge_correctness (featureFilter : FeatureBuilder → bool)
    (stream : list FeatureBuilder) (chunks : list (list FeatureBuilder))
    (owner : list nat) (workers : nat) :
  Cover_appends IB →
  concat chunks = stream →
  length owner = length chunks →
  Forall (λ w, w < workers) owner →
  same_covering (merged_covering featureFilter (distribute workers chunks owner))
                (run_processor featureFilter stream).2.
Proof.
  intros Happ Hcut Hlen Hown.
  rewrite (run_processor_entries featureFilter stream Happ).
  eapply same_covering_trans; [by apply merged_covering_all_entries|].
  apply all_entries_Permutation. rewrite <- Hcut.
  by apply distribute_Permutation.
Qed.

End MergeCorrectness.

(** ** The driver and the entry points *)

Section DriverFacts.
Context `{E : Env} {IB : IndexBuilder}.

Implicit Types (shares : nat → nat → list FeatureBuilder → list (list FeatureBuilder)).
Implicit Types (w : World) (nodeIds : gset N).

Lemma ProcessParallelFromDatRawFormat_parts shares threadsCount chunkFeaturesCount
    featuresFile (featureFilter : FeatureBuilder → bool) w coveringsParts w' :
  ProcessParallelFromDatRawFormat shares threadsCount chunkFeaturesCount featuresFile
    featureFilter w = (Returned coveringsParts, w') →
  ∃ stream, w_features w !! featuresFile = Some stream
    ∧ cover_parts featureFilter (shares threadsCount chunkFeaturesCount stream)
      = Ok coveringsParts.
Proof.
  unfold ProcessParallelFromDatRawFormat, cover_parts.
  destruct (w_features w !! featuresFile) as [stream|]; [|intros [=]].
  rewrite <- list_fmap_compose.
  destruct (collect_parts _) as [parts|] eqn:Hparts; intros [= <- _].
  exists stream. split; [done|]. exact Hparts.
Qed.

Lemma GenerateLocalityIndex_after_covering shares outPath featuresFile
    (featureFilter : FeatureBuilder → bool) threadsCount chunkFeaturesCount w
    coveringsParts w1 :
  ProcessParallelFromDatRawFormat shares threadsCount chunkFeaturesCount featuresFile
    featureFilter (covering_started w) = (Returned coveringsParts, w1) →
  GenerateLocalityIndex shares outPath featuresFile featureFilter threadsCount
    chunkFeaturesCount w
  = match BuildCoveringIndex (merge_coverings coveringsParts) outPath (merge_finished w1) with
    | (Returned true, w2) => (Returned true, emit (EvLog (LINFO, MsgFinishIndex outPath)) w2)
    | r => r
    end.
Proof.
  intros Hparts. unfold GenerateLocalityIndex, bind at 1, LOG at 1.
  fold (covering_started w). unfold bind at 1. rewrite Hparts.
  unfold bind, LOG. fold (merge_finished w1).
  destruct (BuildCoveringIndex _ outPath (merge_finished w1)) as [[[]| |] w2]; done.
Qed.

(** C6: once the processors have delivered their parts, the call ends the
    way the index builder's [BuildCoveringIndex] on the merged covering
    ends, with the same boolean; and it returns a boolean only then. *)
Theorem index_builder_result_propagated shares outPath featuresFile
    (featureFilter : FeatureBuilder → bool) threadsCount chunkFeaturesCount w :
  let covered :=
    ProcessParallelFromDatRawFormat shares threadsCount chunkFeaturesCount featuresFile
      featureFilter (covering_started w) in
  let result :=
    (GenerateLocalityIndex shares outPath featuresFile featureFilter threadsCount
       chunkFeaturesCount w).1 in
  (∀ coveringsParts w1,
      covered = (Returned coveringsParts, w1) →
      result
      = (BuildCoveringIndex (merge_coverings coveringsParts) outPath (merge_finished w1)).1)
  ∧ (∀ built : bool,
      result = Returned built →
      ∃ coveringsParts w1,
        covered = (Returned coveringsParts, w1)
        ∧ (BuildCoveringIndex (merge_coverings coveringsParts) outPath (merge_finished w1)).1
          = Returned built).
Proof.
  intros covered result.
  assert (Hfwd : ∀ coveringsParts w1,
             covered = (Returned coveringsParts, w1) →
             result = (BuildCoveringIndex (merge_coverings coveringsParts) outPath
                         (merge_finished w1)).1).
  { intros parts w1 Hcov. unfold result.
    rewrite (GenerateLocalityIndex_after_covering _ _ _ _ _ _ _ _ _ Hcov).
    destruct (BuildCoveringIndex _ outPath (merge_finished w1)) as [[[]| |] w2]; done. }
  split; [exact Hfwd|].
  intros built Hres.
  destruct covered as [[parts| |] w1] eqn:Hcov.
  - exists parts, w1. split; [done|]. rewrite <- (Hfwd parts w1); done.
  - exfalso. revert Hres. unfold result, GenerateLocalityIndex, bind at 1, LOG at 1.
    fold (covering_started w). unfold bind at 1. subst covered. rewrite Hcov. done.
  - exfalso. revert Hres. unfold result, GenerateLocalityIndex, bind at 1, LOG at 1.
    fold (covering_started w). unfold bind at 1. subst covered. rewrite Hcov. done.
Qed.

(** *** The allow-list *)

Lemma first_token_unparsable_rejected (line : string) :
  first_token_unparsable line → line_rejected line = true.
Proof.
  intros (tok & Htok & Hid). unfold line_rejected. rewrite Htok.
  by apply bool_decide_eq_true_2.
Qed.

Lemma node_parse_error_run lineNumber line nodeIds w :
  node_parse_error lineNumber line nodeIds w
  = (Returned (false, nodeIds), emit (EvLog (LERROR, MsgNodeParseError lineNumber line)) w).
Proof. done. Qed.

(** The loop stops at the first rejected line and reports its number. *)
Lemma ParseNodes_loop_rejected (lines : list string) (lineNumber : nat) nodeIds w :
  (∃ line, line ∈ lines ∧ line_rejected line = true) →
  ∃ (k : nat) (line : string) (nodeIds' : gset N),
    lines !! k = Some line
    ∧ line_rejected line = true
    ∧ (∀ j l, j < k → lines !! j = Some l → line_rejected l = false)
    ∧ ParseNodes_loop lines lineNumber nodeIds w
      = (Returned (false, nodeIds'),
         emit (EvLog (LERROR, MsgNodeParseError (lineNumber + k) line)) w).
Proof.
  revert lineNumber nodeIds.
  induction lines as [|line rest IH]; intros lineNumber nodeIds (bad & Hin & Hbad).
  { by apply elem_of_nil in Hin. }
  destruct (line_rejected line) eqn:Hline.
  - exists 0, line, nodeIds. split; [done|]. split; [done|].
    split; [intros j l Hj; lia|].
    rewrite Nat.add_0_r. cbn [ParseNodes_loop].
    unfold line_rejected in Hline.
    destruct (first_token node_delims line) as [tok|]; [|done].
    apply bool_decide_eq_true_1 in Hline. rewrite Hline. done.
  - apply elem_of_cons in Hin as [->|Hin]; [congruence|].
    cbn [ParseNodes_loop]. pose proof Hline as Hline'. unfold line_rejected in Hline'.
    destruct (first_token node_delims line) as [tok|]; [|done].
    apply bool_decide_eq_false_1 in Hline'.
    destruct (to_uint64 tok) as [nodeId|]; [|done].
    destruct (IH (S lineNumber) ({[nodeId]} ∪ nodeIds)) as (k & l & ids' & Hk & Hl & Hfirst & Hrun).
    { by exists bad. }
    exists (S k), l, ids'. split; [done|]. split; [done|]. split.
    + intros [|j] l' Hj Hl'; simpl in Hl'; [congruence|]. apply (Hfirst j); [lia|done].
    + rewrite Hrun. by replace (S lineNumber + k) with (lineNumber + S k) by lia.
Qed.

Lemma ParseNodes_unopened (nodesFile : string) nodeIds w :
  nodesFile ≠ EmptyString →
  w_text w !! nodesFile = None →
  ParseNodes nodesFile nodeIds w
  = (Returned (false, nodeIds), emit (EvLog (LERROR, MsgCouldNotOpen nodesFile)) w).
Proof.
  intros Hname Hfile. unfold ParseNodes.
  rewrite bool_decide_eq_false_2 by done. rewrite Hfile. done.
Qed.

Lemma ParseNodes_rejected (nodesFile content : string) nodeIds w :
  nodesFile ≠ EmptyString →
  w_text w !! nodesFile = Some content →
  (∃ line, line ∈ getlines content ∧ line_rejected line = true) →
  ∃ (k : nat) (line : string) (nodeIds' : gset N),
    getlines content !! k = Some line
    ∧ line_rejected line = true
    ∧ (∀ j l, j < k → getlines content !! j = Some l → line_rejected l = false)
    ∧ ParseNodes nodesFile nodeIds w
      = (Returned (false, nodeIds'),
         emit (EvLog (LERROR, MsgNodeParseError (S k) line)) w).
Proof.
  intros Hname Hfile Hbad. unfold ParseNodes.
  rewrite bool_decide_eq_false_2 by done. rewrite Hfile.
  apply (ParseNodes_loop_rejected (getlines content) 1 nodeIds w Hbad).
Qed.

Lemma GenerateGeoObjectsIndex_nodes_failed shares outPath geoObjectsFeaturesFile
    threadsCount (nodesFile : string) (streetsFeaturesFile : option string) w nodeIds w' :
  ParseNodes nodesFile ∅ w = (Returned (false, nodeIds), w') →
  GenerateGeoObjectsIndex shares outPath geoObjectsFeaturesFile threadsCount
    (Some nodesFile) streetsFeaturesFile w = (Returned false, w').
Proof.
  intros Hparse. unfold GenerateGeoObjectsIndex, bind at 1. rewrite Hparse. done.
Qed.

(** C7: an allow-list file that cannot be opened, or that has a line whose
    first token is not an id, makes the geo-objects run return [false]
    with one error written and nothing else done: no feature file is read,
    touched or created and no processor is run.  For an unparsable file the
    error carries the number (counted from 1) and the content of the line
    the parser stopped at, the first one it rejects. *)
Theorem bad_allow_list_aborts shares outPath geoObjectsFeaturesFile threadsCount
    (nodesFile : string) (streetsFeaturesFile : option string) w :
  nodesFile ≠ EmptyString →
  (w_text w !! nodesFile = None
   ∨ ∃ content line,
       w_text w !! nodesFile = Some content
       ∧ line ∈ getlines content ∧ first_token_unparsable line) →
  ∃ msg : LogMessage,
    GenerateGeoObjectsIndex shares outPath geoObjectsFeaturesFile threadsCount
      (Some nodesFile) streetsFeaturesFile w
    = (Returned false, emit (EvLog (LERROR, msg)) w)
    ∧ (w_text w !! nodesFile = None → msg = MsgCouldNotOpen nodesFile)
    ∧ (∀ content,
         w_text w !! nodesFile = Some content →
         ∃ (k : nat) (line : string),
           getlines content !! k = Some line
           ∧ line_rejected line = true
           ∧ (∀ j l, j < k → getlines content !! j = Some l → line_rejected l = false)
           ∧ msg = MsgNodeParseError (S k) line).
Proof.
  intros Hname [Hnone|(content & line & Hfile & Hin & Hbad)].
  - exists (MsgCouldNotOpen nodesFile). split; [|split; [done|]].
    + eapply GenerateGeoObjectsIndex_nodes_failed. by apply ParseNodes_unopened.
    + intros content Hfile. congruence.
  - destruct (ParseNodes_rejected nodesFile content ∅ w Hname Hfile)
      as (k & l & ids' & Hk & Hl & Hfirst & Hrun).
    { exists line. split; [done|]. by apply first_token_unparsable_rejected. }
    exists (MsgNodeParseError (S k) l). split; [|split].
    + by eapply GenerateGeoObjectsIndex_nodes_failed.
    + intros Hnone. congruence.
    + intros content' Hfile'. assert (content' = content) as -> by congruence.
      exists k, l. done.
Qed.

(** C10: a line without any token is rejected like a line with a bad id.
    A file holding one makes [ParseNodes], and with it the geo-objects run,
    return [false] with a parse error written; the error names that very
    line when no earlier line is rejected. *)
Theorem blank_line_aborts shares outPath geoObjectsFeaturesFile threadsCount
    (nodesFile content line : string) (streetsFeaturesFile : option string) w (i : nat) :
  nodesFile ≠ EmptyString →
  w_text w !! nodesFile = Some content →
  getlines content !! i = Some line →
  first_token node_delims line = None →
  ∃ (k : nat) (reported : string) (nodeIds' : gset N),
    ParseNodes nodesFile ∅ w
    = (Returned (false, nodeIds'),
       emit (EvLog (LERROR, MsgNodeParseError (S k) reported)) w)
    ∧ GenerateGeoObjectsIndex shares outPath geoObjectsFeaturesFile threadsCount
        (Some nodesFile) streetsFeaturesFile w
      = (Returned false, emit (EvLog (LERROR, MsgNodeParseError (S k) reported)) w)
    ∧ getlines content !! k = Some reported
    ∧ k ≤ i
    ∧ ((∀ j l, j < i → getlines content !! j = Some l → line_rejected l = false) →
       k = i ∧ reported = line).
Proof.
  intros Hname Hfile Hline Htok.
  assert (Hrej : line_rejected line = true).
  { unfold line_rejected. by rewrite Htok. }
  destruct (ParseNodes_rejected nodesFile content ∅ w Hname Hfile)
    as (k & l & ids' & Hk & Hl & Hfirst & Hrun).
  { exists line. split; [|done]. by eapply list_elem_of_lookup_2. }
  assert (Hle : k ≤ i).
  { destruct (decide (k ≤ i)) as [|Hgt]; [done|].
    specialize (Hfirst i line). rewrite Hfirst in Hrej; [done|lia|done]. }
  exists k, l, ids'. split; [done|]. split.
  { by eapply GenerateGeoObjectsIndex_nodes_failed. }
  split; [done|]. split; [done|].
  intros Hearlier.
  assert (k = i) as ->.
  { destruct (decide (k = i)) as [|Hne]; [done|].
    specialize (Hearlier k l). rewrite Hearlier in Hl; [done|lia|done]. }
  split; [done|]. congruence.
Qed.

(** *** The geo-objects entry point *)

(** C8: the geo-objects filter accepts exactly the buildings, the features
    with a house, the streets when a streets file was given, and the points
    of interest whose encoded id is in the (then non-empty) allow-list.
    Against the allow-list 10, 20, 30 a point of interest with id 20 is
    accepted, and one with id 40 that is nothing else is rejected. *)
Theorem geo_objects_filter_accepts nodeIds (streetsFeaturesFile : option string)
    (fb : FeatureBuilder) :
  let encodedId := GetEncodedId (GetMostGenericOsmId fb) in
  let allowList : gset N := {[10; 20; 30]}%N in
  (geo_objects_filter nodeIds streetsFeaturesFile fb = true ↔
     IsBuilding fb = true
     ∨ HasHouse fb = true
     ∨ (is_Some streetsFeaturesFile ∧ IsStreet fb = true)
     ∨ (nodeIds ≠ ∅ ∧ IsPoi fb = true ∧ encodedId ∈ nodeIds))
  ∧ (IsPoi fb = true → encodedId = 20%N →
     geo_objects_filter allowList streetsFeaturesFile fb = true)
  ∧ (IsPoi fb = true → encodedId = 40%N →
     IsBuilding fb = false → HasHouse fb = false →
     (is_Some streetsFeaturesFile → IsStreet fb = false) →
     geo_objects_filter allowList streetsFeaturesFile fb = false).
Proof.
  intros encodedId allowList.
  assert (Hiff : ∀ ids : gset N,
    geo_objects_filter ids streetsFeaturesFile fb = true ↔
      IsBuilding fb = true
      ∨ HasHouse fb = true
      ∨ (is_Some streetsFeaturesFile ∧ IsStreet fb = true)
      ∨ (ids ≠ ∅ ∧ IsPoi fb = true ∧ encodedId ∈ ids)).
  { intros ids. unfold geo_objects_filter, featuresFilter. fold encodedId.
    destruct (IsBuilding fb), (HasHouse fb), (IsStreet fb), (IsPoi fb); simpl;
      repeat case_bool_decide; simpl; rewrite ?bool_decide_eq_true;
      intuition (try congruence). }
  assert (Hin20 : (20%N : N) ∈ allowList).
  { apply elem_of_union_l, elem_of_union_r, elem_of_singleton. done. }
  split; [apply Hiff|]. split.
  - intros Hpoi Hid. apply Hiff. right; right; right.
    rewrite Hid. split; [|done].
    intros Hempty. rewrite Hempty in Hin20. by apply not_elem_of_empty in Hin20.
  - intros Hpoi Hid Hb Hh Hs. apply not_true_is_false. rewrite Hiff.
    rewrite Hid, Hb, Hh. intros [|[|[[Hsome Hst]|(_ & _ & Hin)]]]; [done|done| |].
    + rewrite Hs in Hst; done.
    + unfold allowList in Hin.
      rewrite !elem_of_union, !elem_of_singleton in Hin.
      destruct Hin as [[|]|]; done.
Qed.



End DriverFacts.

(** ** The properties on the executable instance *)

Module RefFacts.
Import Ref.

Lemma strip_to_triangles_length (n : nat) (strip : list Pt) :
  2 ≤ n → n ≤ length strip → length (strip_to_triangles n strip) = 3 * (n - 2).
Proof.
  revert strip. induction n as [|n IH]; intros strip Hlo Hhi; [lia|].
  destruct strip as [|a [|p [|c rest]]]; simpl in Hhi; try lia.
  - assert (n = 1) as -> by lia. done.
  - cbn [strip_to_triangles].
    destruct n as [|[|n]]; [lia|done|].
    cbn [length]. rewrite IH by (simpl; lia). lia.
Qed.

Lemma strip_to_triangles_expands : StripToTriangles_expands.
Proof. intros n strip Hn Hlen. apply strip_to_triangles_length; [lia|done]. Qed.

Lemma cover_appends : Cover_appends index_builder.
Proof. intros o covering. done. Qed.

Lemma merge_correctness_witness :
  let stream := [square; collinear; poi 20; road] in
  let chunks := [[square]; [collinear]; [poi 20]; [road]] in
  let owner := [0; 1; 0; 1] in
  Cover_appends index_builder
  ∧ concat chunks = stream
  ∧ length owner = length chunks
  ∧ Forall (λ w, w < 2) owner
  ∧ same_covering (merged_covering (λ _, true) (distribute 2 chunks owner))
                  (run_processor (λ _, true) stream).2
  ∧ ∃ covering,
      (run_processor (λ _, true) stream).2 = Ok covering ∧ length covering = 9.
Proof.
  intros stream chunks owner.
  assert (Hown : Forall (λ w, w < 2) owner) by (repeat constructor).
  split; [exact cover_appends|]. split; [reflexivity|]. split; [reflexivity|].
  split; [exact Hown|]. split.
  - exact (merge_correctness (λ _, true) stream chunks owner 2 cover_appends
             eq_refl eq_refl Hown).
  - eexists. split; reflexivity.
Defined.

Lemma build_point_feature_witness :
  GetGeomType (poi 20) = Point
  ∧ Build NewLocalityObjectBuilder (poi 20) = ([], Ok (NewLocalityObjectBuilder, None)).
Proof.
  split; [reflexivity|].
  exact (eq_trans (build_point_feature NewLocalityObjectBuilder (poi 20) eq_refl) eq_refl).
Defined.

Lemma area_object_triangles_witness :
  StripToTriangles_expands
  ∧ GetGeomType square = Area
  ∧ ∃ b' obj,
      Build NewLocalityObjectBuilder square = ([], Ok (b', Some obj))
      ∧ ∃ (trg : list Pt) (k : nat),
          obj_geometry obj = Triangles trg ∧ 0 < k ∧ length trg = 3 * k ∧ trg ≠ [].
Proof.
  split; [exact strip_to_triangles_expands|]. split; [reflexivity|].
  eexists _, _. split; [reflexivity|].
  exact (area_object_triangles NewLocalityObjectBuilder _ square [] _
           strip_to_triangles_expands eq_refl eq_refl).
Defined.


Lemma index_builder_result_propagated_witness :
  let covered :=
    ProcessParallelFromDatRawFormat shares 2 1 "data/geo.dat" (λ _, true)
      (covering_started world) in
  let result :=
    (GenerateLocalityIndex shares "out.idx" "data/geo.dat" (λ _, true) 2 1 world).1 in
  result = Returned true
  ∧ ∃ coveringsParts w1,
      covered = (Returned coveringsParts, w1)
      ∧ (BuildCoveringIndex (merge_coverings coveringsParts) "out.idx" (merge_finished w1)).1
        = Returned true.
Proof.
  intros covered result.
  assert (Hres : result = Returned true) by (vm_compute; reflexivity).
  split; [exact Hres|].
  exact (proj2 (index_builder_result_propagated shares "out.idx" "data/geo.dat"
                  (λ _, true) 2 1 world) true Hres).
Defined.

Lemma bad_allow_list_aborts_witness :
  "nodes.txt" ≠ EmptyString
  ∧ w_text world !! "nodes.txt" = Some nodes_text
  ∧ "abc" ∈ getlines nodes_text
  ∧ first_token_unparsable "abc"
  ∧ ∃ msg,
      GenerateGeoObjectsIndex shares "out.idx" "data/geo.dat" 2 (Some "nodes.txt") None world
      = (Returned false, emit (EvLog (LERROR, msg)) world).
Proof.
  assert (Hname : "nodes.txt" ≠ EmptyString) by discriminate.
  assert (Hfile : w_text world !! "nodes.txt" = Some nodes_text) by (vm_compute; reflexivity).
  assert (Hin : "abc" ∈ getlines nodes_text).
  { apply (list_elem_of_lookup_2 _ 1). vm_compute. reflexivity. }
  assert (Hbad : first_token_unparsable "abc").
  { exists "abc". split; vm_compute; reflexivity. }
  split; [exact Hname|]. split; [exact Hfile|]. split; [exact Hin|]. split; [exact Hbad|].
  destruct (bad_allow_list_aborts (IB:=index_builder) shares "out.idx" "data/geo.dat" 2
              "nodes.txt" None world Hname
              (or_intror (ex_intro _ nodes_text (ex_intro _ "abc" (conj Hfile (conj Hin Hbad))))))
    as (msg & Hrun & _).
  exists msg. exact Hrun.
Defined.

Lemma geo_objects_filter_accepts_witness :
  let allowList : gset N := {[10; 20; 30]}%N in
  (IsPoi (poi 20) = true ∧ GetEncodedId (GetMostGenericOsmId (poi 20)) = 20%N
   ∧ geo_objects_filter allowList None (poi 20) = true)
  ∧ (IsPoi (poi 40) = true ∧ GetEncodedId (GetMostGenericOsmId (poi 40)) = 40%N
     ∧ IsBuilding (poi 40) = false ∧ HasHouse (poi 40) = false
     ∧ geo_objects_filter allowList None (poi 40) = false).
Proof.
  intros allowList. split.
  - split; [reflexivity|]. split; [reflexivity|].
    exact (proj1 (proj2 (geo_objects_filter_accepts ∅ None (poi 20))) eq_refl eq_refl).
  - split; [reflexivity|]. split; [reflexivity|]. split; [reflexivity|]. split; [reflexivity|].
    refine (proj2 (proj2 (geo_objects_filter_accepts ∅ None (poi 40)))
              eq_refl eq_refl eq_refl eq_refl _).
    intros [x Hx]. discriminate Hx.
Defined.


Lemma blank_line_aborts_witness :
  "blank.txt" ≠ EmptyString
  ∧ w_text world !! "blank.txt" = Some nodes_blank_text
  ∧ getlines nodes_blank_text !! 1 = Some " "
  ∧ first_token node_delims " " = None
  ∧ ∃ k reported,
      GenerateGeoObjectsIndex shares "out.idx" "data/geo.dat" 2 (Some "blank.txt") None world
      = (Returned false, emit (EvLog (LERROR, MsgNodeParseError (S k) reported)) world)
      ∧ k ≤ 1.
Proof.
  assert (Hname : "blank.txt" ≠ EmptyString) by discriminate.
  assert (Hfile : w_text world !! "blank.txt" = Some nodes_blank_text)
    by (vm_compute; reflexivity).
  assert (Hline : getlines nodes_blank_text !! 1 = Some " ") by (vm_compute; reflexivity).
  assert (Htok : first_token node_delims " " = None) by (vm_compute; reflexivity).
  split; [exact Hname|]. split; [exact Hfile|]. split; [exact Hline|]. split; [exact Htok|].
  destruct (blank_line_aborts (IB:=index_builder) shares "out.idx" "data/geo.dat" 2
              "blank.txt" nodes_blank_text " " None world 1 Hname Hfile Hline Htok)
    as (k & reported & ids & _ & Hrun & _ & Hle & _).
  exists k, reported. split; [exact Hrun|exact Hle].
Defined.



(** The failure scenario of the allow-list: "abc" on the second line. *)
Example abc_on_line_two :
  GenerateGeoObjectsIndex shares "out.idx" "data/geo.dat" 2 (Some "nodes.txt") None world
  = (Returned false, emit (EvLog (LERROR, MsgNodeParseError 2 "abc")) world).
Proof. reflexivity. Qed.

(** An allow-list that is not there. *)
Example missing_allow_list :
  GenerateGeoObjectsIndex shares "out.idx" "data/geo.dat" 2 (Some "missing.txt") None world
  = (Returned false, emit (EvLog (LERROR, MsgCouldNotOpen "missing.txt")) world).
Proof. reflexivity. Qed.

(** A blank second line is reported as such. *)
Example blank_on_line_two :
  GenerateGeoObjectsIndex shares "out.idx" "data/geo.dat" 2 (Some "blank.txt") None world
  = (Returned false, emit (EvLog (LERROR, MsgNodeParseError 2 " ")) world).
Proof. reflexivity. Qed.

(** An empty file name is no file: nothing is parsed and the run goes on. *)
Example empty_nodes_file_name :
  ParseNodes EmptyString ∅ world = (Returned (true, ∅), world).
Proof. reflexivity. Qed.

End RefFacts.

(** * Further properties of the code *)

(** ** The builder, feature kind by feature kind *)

Section BuilderMore.
Context `{E : Env}.

Implicit Types (b : LocalityObjectBuilder) (fb : FeatureBuilder).

Lemma strip_or_hull_log fb (points : list PointD) (holder : GeometryHolder)
    (log : list LogEntry) (h : GeometryHolder) :
  strip_or_hull fb points holder = (log, Some h) → log = [].
Proof.
  unfold strip_or_hull. case_bool_decide; [|by intros [= <- _]].
  destruct (TryToMakeStrip points holder) as [[ok pts] holder1].
  destruct ok; [by intros [= <- _]|].
  destruct (TryToMakeStrip _ (SetInner holder1)) as [[ok' pts'] holder2].
  destruct ok'; [by intros [= <- _]|intros [=]].
Qed.

Lemma strip_or_hull_few_points fb (points : list PointD) (holder : GeometryHolder) :
  length points ≤ 2 → strip_or_hull fb points holder = ([], Some holder).
Proof.
  intros Hlen. unfold strip_or_hull. rewrite bool_decide_eq_false_2 by lia. done.
Qed.

Lemma MakeGeometryHolder_area b fb :
  GetGeomType fb = Area →
  MakeGeometryHolder b fb =
    if bool_decide (simplified_points b fb = []) then ([], None)
    else if NeedProcessTriangles (holder_before_strip b fb) then
      match strip_or_hull fb (area_points fb (simplified_points b fb))
                          (holder_before_strip b fb) with
      | (log, None) => (log, None)
      | (log, Some holder) =>
          if NeedProcessTriangles holder then (log, None) else (log, Some holder)
      end
    else ([], Some (holder_before_strip b fb)).
Proof.
  intros Hkind. unfold MakeGeometryHolder.
  fold (simplified_points b fb). case_bool_decide; [done|].
  fold (holder_before_strip b fb).
  unfold IsArea. rewrite bool_decide_eq_true_2 by done. done.
Qed.

Lemma Build_log b fb : (Build b fb).1 = (MakeGeometryHolder b fb).1.
Proof.
  unfold Build. destruct (MakeGeometryHolder b fb) as [log [data|]]; [|done].
  destruct (GetGeomType fb); simpl; try done. by case_bool_decide.
Qed.

(** The only diagnostic of [MakeGeometryHolder]. *)
Lemma MakeGeometryHolder_log b fb :
  (MakeGeometryHolder b fb).1
  = if hull_retry_fails b fb then [triangles_warning b fb] else [].
Proof.
  destruct (hull_retry_fails b fb) eqn:Hfail.
  { by rewrite MakeGeometryHolder_retry_fails. }
  destruct (decide (GetGeomType fb = Area)) as [Hkind|Hkind].
  - rewrite MakeGeometryHolder_area by done.
    case_bool_decide as Hpts; [done|].
    destruct (NeedProcessTriangles (holder_before_strip b fb)) eqn:Hneed; [|done].
    destruct (strip_or_hull fb _ (holder_before_strip b fb)) as [log [h|]] eqn:Hstrip.
    { apply strip_or_hull_log in Hstrip as ->. by destruct (NeedProcessTriangles h). }
    exfalso. revert Hfail Hstrip.
    unfold hull_retry_fails, strip_or_hull, hull_attempt, hull_at_retry, points_at_retry,
      direct_attempt, IsArea.
    rewrite (bool_decide_eq_false_2 _ Hpts), (bool_decide_eq_true_2 _ Hkind), Hneed.
    simpl. case_bool_decide; simpl; [|by intros _ [=]].
    destruct (TryToMakeStrip _ (holder_before_strip b fb)) as [[ok pts] holder1]. simpl.
    destruct ok; simpl; [by intros _ [=]|].
    destruct (TryToMakeStrip _ (SetInner holder1)) as [[ok' pts'] holder2]. simpl.
    destruct ok'; simpl; [by intros _ [=]|done].
  - rewrite MakeGeometryHolder_not_area by done. by case_bool_decide.
Qed.

Lemma hull_retry_fails_header b1 b2 fb :
  m_header b1 = m_header b2 →
  hull_retry_fails b1 fb = hull_retry_fails b2 fb
  ∧ triangles_warning b1 fb = triangles_warning b2 fb.
Proof.
  intros Hh.
  unfold hull_retry_fails, triangles_warning, hull_attempt, hull_at_retry, points_at_retry,
    direct_attempt, holder_before_strip, simplified_points.
  rewrite Hh. done.
Qed.

(** X1: a line feature is built exactly when its simplified points are not
    empty; the object then carries the encoded id and the inner points the
    holder keeps after [AddPoints], and nothing is logged either way. *)
Theorem build_line_feature b fb :
  GetGeomType fb = Line →
  Build b fb =
    if bool_decide (simplified_points b fb = []) then ([], Ok (b, None))
    else
      let holder :=
        AddPoints (simplified_points b fb) 0
                  (NewGeometryHolder fb (m_header b) UINT32_MAX) in
      let obj := mkLocalityObject (GetEncodedId (GetMostGenericOsmId fb))
                                  (Points (m_innerPts holder)) in
      ([], Ok (mkBuilder (m_header b) obj (m_pointsBuffer b), Some obj)).
Proof.
  intros Hkind. unfold Build.
  rewrite MakeGeometryHolder_not_area by (rewrite Hkind; discriminate).
  case_bool_decide; [done|]. rewrite Hkind.
  unfold holder_before_strip, IsLine. rewrite bool_decide_eq_true_2 by done. done.
Qed.

(** X2: what a call leaves in the reused builder.  The header never
    changes; when an object is handed back it is the builder's slot and
    carries the encoded id of the feature; when nothing is handed back the
    builder, slot and buffer included, is as it was. *)
Theorem build_keeps_builder b b' fb (log : list LogEntry) (r : option LocalityObject) :
  Build b fb = (log, Ok (b', r)) →
  m_header b' = m_header b
  ∧ match r with
    | Some obj =>
        m_localityObject b' = obj
        ∧ obj_id obj = GetEncodedId (GetMostGenericOsmId fb)
    | None => b' = b
    end.
Proof.
  unfold Build. destruct (MakeGeometryHolder b fb) as [log0 [data|]].
  - destruct (GetGeomType fb); simpl; try (by intros [=]).
    + by intros [= _ <- <-].
    + by intros [= _ <- <-].
    + case_bool_decide; [|by intros [=]]. by intros [= _ <- <-].
  - by intros [= _ <- <-].
Qed.

(** X3: an area feature whose flattened outer points number two or fewer
    is dropped without a diagnostic: no strip is attempted, the holder
    still lacks its triangles, and the builder is left as it was. *)
Theorem area_with_few_points_dropped b fb :
  GetGeomType fb = Area →
  NeedProcessTriangles (holder_before_strip b fb) = true →
  length (area_points fb (simplified_points b fb)) ≤ 2 →
  Build b fb = ([], Ok (b, None)).
Proof.
  intros Hkind Hneed Hlen. unfold Build.
  rewrite MakeGeometryHolder_area by done.
  case_bool_decide; [done|]. rewrite Hneed.
  rewrite strip_or_hull_few_points by done. rewrite Hneed. done.
Qed.

(** X4: whenever [MakeGeometryHolder] hands back a holder for an area
    feature, the holder has its triangles ([NeedProcessTriangles] is
    false) and nothing was logged. *)
Theorem area_holder_has_triangles b fb (log : list LogEntry) (holder : GeometryHolder) :
  GetGeomType fb = Area →
  MakeGeometryHolder b fb = (log, Some holder) →
  NeedProcessTriangles holder = false ∧ log = [].
Proof.
  intros Hkind. rewrite MakeGeometryHolder_area by done.
  case_bool_decide; [by intros [=]|].
  destruct (NeedProcessTriangles (holder_before_strip b fb)) eqn:Hneed.
  - destruct (strip_or_hull fb _ (holder_before_strip b fb)) as [log0 [h|]] eqn:Hstrip;
      [|by intros [=]].
    apply strip_or_hull_log in Hstrip as ->.
    destruct (NeedProcessTriangles h) eqn:Hh; [by intros [=]|].
    by intros [= <- <-].
  - by intros [= <- <-].
Qed.

(** X5: the builder writes a diagnostic in one situation only.  Either the
    retry on the hull failed, and then the log is the single triangles
    warning and nothing is handed back; or the log is empty. *)
Theorem warning_only_on_hull_failure b fb :
  (hull_retry_fails b fb = true
   ∧ Build b fb = ([triangles_warning b fb], Ok (b, None)))
  ∨ (hull_retry_fails b fb = false ∧ (Build b fb).1 = []).
Proof.
  destruct (hull_retry_fails b fb) eqn:Hfail.
  - left. split; [done|]. unfold Build.
    by rewrite MakeGeometryHolder_retry_fails.
  - right. split; [done|]. by rewrite Build_log, MakeGeometryHolder_log, Hfail.
Qed.

(** X6: the checks of the builder.  A point or line feature never makes it
    abort; an area feature makes it abort exactly when a holder comes back
    whose strip has fewer than three points. *)
Theorem build_abort_condition b fb :
  (GetGeomType fb = Point ∨ GetGeomType fb = Line → (Build b fb).2 ≠ CheckFailed)
  ∧ (GetGeomType fb = Area →
     ((Build b fb).2 = CheckFailed ↔
      ∃ holder, (MakeGeometryHolder b fb).2 = Some holder
                ∧ length (m_innerTrg holder) < 3)).
Proof.
  unfold Build. destruct (MakeGeometryHolder b fb) as [log [data|]]; simpl.
  - split.
    + intros [-> | ->]; done.
    + intros ->. case_bool_decide as Hlen; simpl.
      * split; [done|]. intros (h & [= <-] & ?). lia.
      * split; [|done]. intros _. exists data. split; [done|lia].
  - split; [done|]. intros _. split; [done|]. by intros (h & [=] & _).
Qed.

(** X20: what an area feature is built into.  When an object comes back,
    a holder came back without a diagnostic, its strip has at least three
    points, the triangles of the object are the expansion of that strip,
    and the strip is what stays in the builder's buffer. *)
Theorem build_area_feature b b' fb (log : list LogEntry) (obj : LocalityObject) :
  GetGeomType fb = Area →
  Build b fb = (log, Ok (b', Some obj)) →
  ∃ holder,
    MakeGeometryHolder b fb = ([], Some holder)
    ∧ log = []
    ∧ 3 ≤ length (m_innerTrg holder)
    ∧ obj = mkLocalityObject (GetEncodedId (GetMostGenericOsmId fb))
              (Triangles (StripToTriangles (length (m_innerTrg holder)) (m_innerTrg holder)))
    ∧ m_pointsBuffer b' = m_innerTrg holder.
Proof.
  intros Hkind. unfold Build.
  destruct (MakeGeometryHolder b fb) as [log0 [data|]] eqn:Hholder; [|by intros [=]].
  destruct (area_holder_has_triangles b fb log0 data Hkind Hholder) as [_ ->].
  rewrite Hkind. case_bool_decide as Hlen; [|by intros [=]].
  intros [= <- <- <-]. by exists data.
Qed.

(** X21: the fallback at work.  When the direct attempt on more than two
    points fails and the retry on the hull succeeds and leaves the holder
    with its triangles, that holder is handed back and nothing is logged:
    the feature is indexed by the strip of its hull. *)
Theorem hull_fallback_used b fb :
  GetGeomType fb = Area →
  simplified_points b fb ≠ [] →
  NeedProcessTriangles (holder_before_strip b fb) = true →
  2 < length (area_points fb (simplified_points b fb)) →
  (direct_attempt b fb).1.1 = false →
  (hull_attempt b fb).1.1 = true →
  NeedProcessTriangles (hull_attempt b fb).2 = false →
  MakeGeometryHolder b fb = ([], Some (hull_attempt b fb).2).
Proof.
  intros Hkind Hpts Hneed Hlen Hdirect Hhull Hdone.
  rewrite MakeGeometryHolder_area by done.
  rewrite bool_decide_eq_false_2 by done. rewrite Hneed.
  unfold strip_or_hull. rewrite bool_decide_eq_true_2 by done.
  unfold hull_attempt, hull_at_retry, points_at_retry, direct_attempt in *.
  destruct (TryToMakeStrip _ (holder_before_strip b fb)) as [[ok pts] holder1].
  simpl in *. subst ok.
  destruct (TryToMakeStrip _ (SetInner holder1)) as [[ok' pts'] holder2].
  simpl in *. subst ok'. by rewrite Hdone.
Qed.

End BuilderMore.

(** ** Processors, seen from the stream *)

Section ProcessorMore.
Context `{E : Env} {IB : IndexBuilder}.

Implicit Types (b : LocalityObjectBuilder) (fb : FeatureBuilder).
Implicit Types (featureFilter : FeatureBuilder → bool).
Implicit Types (covering : LocalitiesCovering) (fbs : list FeatureBuilder).

Local Arguments processor : simpl never.
Local Arguments Build : simpl never.

Lemma processor_rejected featureFilter (st : LocalityObjectBuilder * LocalitiesCovering) fb :
  featureFilter fb = false → processor featureFilter st fb = ([], Ok st).
Proof. intros Hrej. unfold processor. destruct st. by rewrite Hrej. Qed.

Lemma processor_accepted featureFilter b covering fb :
  featureFilter fb = true →
  processor featureFilter (b, covering) fb = processor (λ _, true) (b, covering) fb.
Proof. intros Hacc. unfold processor. by rewrite Hacc. Qed.

Lemma processor_log featureFilter b covering fb :
  (processor featureFilter (b, covering) fb).1
  = if featureFilter fb then (Build b fb).1 else [].
Proof.
  unfold processor. destruct (featureFilter fb); simpl; [|done].
  by destruct (Build b fb) as [log [[b' [o|]]|]].
Qed.

Lemma processor_header featureFilter b covering fb b' covering' :
  (processor featureFilter (b, covering) fb).2 = Ok (b', covering') →
  m_header b' = m_header b.
Proof.
  unfold processor. destruct (featureFilter fb); simpl; [|by intros [= <- _]].
  pose proof (Build_result_independent b b fb eq_refl) as Hind.
  destruct (Build b fb) as [log [[b1 [o|]]|]]; simpl in *; [| |done].
  - intros [= <- _]. by destruct Hind as (_ & ? & _).
  - intros [= <- _]. by destruct Hind as (_ & ? & _).
Qed.

Lemma feed_header featureFilter fbs b covering b' covering' :
  (feed featureFilter (b, covering) fbs).2 = Ok (b', covering') →
  m_header b' = m_header b.
Proof.
  revert b covering. induction fbs as [|fb rest IH]; intros b covering; cbn [feed].
  { by intros [= <- _]. }
  destruct (processor featureFilter (b, covering) fb) as [log [[b1 covering1]|]] eqn:Hstep;
    [|by intros [=]].
  destruct (feed featureFilter (b1, covering1) rest) as [log' r] eqn:Hrest.
  simpl. intros Hr. rewrite Hr in Hrest.
  transitivity (m_header b1).
  - apply (IH b1 covering1). by rewrite Hrest.
  - apply (processor_header featureFilter b covering fb b1 covering1). by rewrite Hstep.
Qed.

(** X7: a builder that has already served any number of features builds
    from the next feature what a fresh builder builds from it: the same
    diagnostics, and the same object, the same "nothing", or the same
    abort. *)
Theorem reused_builder_builds_alike featureFilter covering fbs b' covering' fb :
  (feed featureFilter (NewLocalityObjectBuilder, covering) fbs).2 = Ok (b', covering') →
  (Build b' fb).1 = (Build NewLocalityObjectBuilder fb).1
  ∧ match (Build b' fb).2, (Build NewLocalityObjectBuilder fb).2 with
    | Ok (_, r), Ok (_, r0) => r = r0
    | CheckFailed, CheckFailed => True
    | _, _ => False
    end.
Proof.
  intros Hfeed. apply feed_header in Hfeed. split.
  - rewrite !Build_log. by rewrite (MakeGeometryHolder_header _ _ fb Hfeed).
  - pose proof (Build_result_independent b' NewLocalityObjectBuilder fb Hfeed) as Hind.
    destruct (Build b' fb).2 as [[b1 r1]|], (Build NewLocalityObjectBuilder fb).2 as [[b2 r2]|];
      try done.
    by destruct Hind as [-> _].
Qed.

(** X9: the filter inside the processor acts like a filter on the stream:
    a processor with a filter, fed a stream, ends with the same log,
    builder and covering as a processor that accepts everything, fed the
    features of the stream the filter accepts. *)
Theorem feed_filtered_stream featureFilter
    (st : LocalityObjectBuilder * LocalitiesCovering) fbs :
  feed featureFilter st fbs
  = feed (λ _, true) st (filter (λ fb, featureFilter fb = true) fbs).
Proof.
  revert st. induction fbs as [|fb rest IH]; intros st; [done|].
  rewrite filter_cons. destruct (featureFilter fb) eqn:Hacc.
  - rewrite decide_True by done. cbn [feed]. destruct st as [b covering].
    rewrite (processor_accepted featureFilter b covering fb Hacc).
    destruct (processor (λ _, true) (b, covering) fb) as [log [st'|]]; [|done].
    by rewrite IH.
  - rewrite decide_False by done. cbn [feed].
    rewrite (processor_rejected featureFilter st fb Hacc). rewrite IH.
    by destruct (feed _ st _).
Qed.

(** X10: the merge loop delivers the parts in the reverse of the order in
    which the processors were made, each part whole. *)
Theorem merge_coverings_reversed (coveringsParts : list LocalitiesCovering) :
  merge_coverings coveringsParts = concat (rev coveringsParts).
Proof.
  induction coveringsParts as [|part parts IH]; [done|].
  rewrite merge_coverings_cons, IH. simpl.
  rewrite concat_app. simpl. by rewrite app_nil_r.
Qed.

(** X11: the log of a processor that runs its share to the end holds, in
    stream order, one triangles warning for every accepted feature whose
    retry on the hull fails, and nothing else. *)
Theorem run_processor_log featureFilter fbs (log : list LogEntry) covering :
  run_processor featureFilter fbs = (log, Ok covering) →
  log = concat (feature_warnings featureFilter <$> fbs).
Proof.
  unfold run_processor.
  assert (Hgen : ∀ l b cov0 log0 st,
             m_header b = m_header NewLocalityObjectBuilder →
             feed featureFilter (b, cov0) l = (log0, Ok st) →
             log0 = concat (feature_warnings featureFilter <$> l)).
  { induction l as [|fb rest IH]; intros b cov0 log0 st Hh; cbn [feed].
    { by intros [= <- _]. }
    pose proof (processor_log featureFilter b cov0 fb) as Hlog.
    pose proof (processor_header featureFilter b cov0 fb) as Hhead.
    destruct (processor featureFilter (b, cov0) fb) as [log1 [[b1 cov1]|]]; [|by intros [=]].
    simpl in Hlog. specialize (Hhead b1 cov1 eq_refl).
    destruct (feed featureFilter (b1, cov1) rest) as [log2 r] eqn:Hrest.
    intros [= <- ->]. rewrite fmap_cons. cbn [concat].
    rewrite <- (IH b1 cov1 log2 st); [|congruence|done].
    f_equal. rewrite Hlog. unfold feature_warnings.
    destruct (featureFilter fb); simpl; [|done].
    rewrite Build_log, MakeGeometryHolder_log.
    destruct (hull_retry_fails_header b NewLocalityObjectBuilder fb Hh) as [-> ->]. done. }
  destruct (feed featureFilter (NewLocalityObjectBuilder, []) fbs) as [log0 [[b' cov']|]] eqn:Hfeed;
    intros [= <- _].
  by eapply Hgen.
Qed.

End ProcessorMore.

(** ** The allow-list, when it parses *)

Section AllowListMore.
Context `{E : Env}.

Implicit Types (w : World) (nodeIds : gset N) (fb : FeatureBuilder).

Lemma line_accepted_id (line : string) :
  line_rejected line = false → ∃ nodeId, line_id line = Some nodeId.
Proof.
  unfold line_rejected, line_id.
  destruct (first_token node_delims line) as [tok|]; [|done].
  intros Hacc. apply bool_decide_eq_false_1 in Hacc.
  destruct (to_uint64 tok) as [nodeId|]; [by exists nodeId|done].
Qed.

Lemma parsed_ids_cons (line : string) (rest : list string) (nodeId : N) :
  line_id line = Some nodeId → parsed_ids (line :: rest) = {[nodeId]} ∪ parsed_ids rest.
Proof. intros Hid. unfold parsed_ids. simpl. by rewrite Hid. Qed.

Lemma ParseNodes_loop_step (line : string) (rest : list string) (lineNumber : nat)
    nodeIds (nodeId : N) w :
  line_id line = Some nodeId →
  ParseNodes_loop (line :: rest) lineNumber nodeIds w
  = ParseNodes_loop rest (S lineNumber) ({[nodeId]} ∪ nodeIds) w.
Proof.
  unfold line_id. intros Hid. cbn [ParseNodes_loop].
  destruct (first_token node_delims line) as [tok|]; [|done]. by rewrite Hid.
Qed.

Lemma ParseNodes_loop_accepted (lines : list string) (lineNumber : nat) nodeIds w :
  Forall (λ line, line_rejected line = false) lines →
  ParseNodes_loop lines lineNumber nodeIds w
  = (Returned (true, parsed_ids lines ∪ nodeIds), w).
Proof.
  revert lineNumber nodeIds.
  induction lines as [|line rest IH]; intros lineNumber nodeIds Hall.
  { unfold parsed_ids. simpl. by rewrite (left_id_L ∅ (∪)). }
  apply Forall_cons in Hall as [Hline Hrest].
  destruct (line_accepted_id line Hline) as [nodeId Hid].
  rewrite (ParseNodes_loop_step _ _ _ _ _ _ Hid), IH by done.
  rewrite (parsed_ids_cons _ _ _ Hid).
  rewrite (comm_L (∪) {[nodeId]} (parsed_ids rest)).
  by rewrite (assoc_L (∪)).
Qed.

Lemma elem_of_parsed_ids (lines : list string) (nodeId : N) :
  nodeId ∈ parsed_ids lines ↔ ∃ line, line ∈ lines ∧ line_id line = Some nodeId.
Proof. unfold parsed_ids. rewrite elem_of_list_to_set, list_elem_of_omap. done. Qed.

(** X12: an allow-list whose every line is accepted makes [ParseNodes]
    return [true] without a word in the log; the set it was given has
    grown by the id of every line, and by nothing else.  An empty file is
    such a list. *)
Theorem ParseNodes_accepts (nodesFile content : string) nodeIds w :
  nodesFile ≠ EmptyString →
  w_text w !! nodesFile = Some content →
  Forall (λ line, line_rejected line = false) (getlines content) →
  ParseNodes nodesFile nodeIds w
  = (Returned (true, parsed_ids (getlines content) ∪ nodeIds), w)
  ∧ ∀ nodeId,
      nodeId ∈ parsed_ids (getlines content) ↔
      ∃ line, line ∈ getlines content ∧ line_id line = Some nodeId.
Proof.
  intros Hname Hfile Hall. split; [|apply elem_of_parsed_ids].
  unfold ParseNodes. rewrite bool_decide_eq_false_2 by done. rewrite Hfile.
  by apply ParseNodes_loop_accepted.
Qed.

(** X13: on a file it can open [ParseNodes] always returns, and the flag
    it returns says whether every line was accepted. *)
Theorem ParseNodes_flag (nodesFile content : string) nodeIds w :
  nodesFile ≠ EmptyString →
  w_text w !! nodesFile = Some content →
  ∃ nodeIds' w',
    ParseNodes nodesFile nodeIds w
    = (Returned
         (bool_decide (Forall (λ line, line_rejected line = false) (getlines content)),
          nodeIds'),
       w').
Proof.
  intros Hname Hfile. case_bool_decide as Hall.
  - eexists _, _. unfold ParseNodes. rewrite bool_decide_eq_false_2 by done.
    rewrite Hfile. by apply ParseNodes_loop_accepted.
  - apply not_Forall_Exists in Hall; [|apply _].
    apply Exists_exists in Hall as (line & Hin & Hrej).
    apply not_false_is_true in Hrej.
    destruct (ParseNodes_rejected nodesFile content nodeIds w Hname Hfile)
      as (k & l & ids' & _ & _ & _ & Hrun).
    { by exists line. }
    eexists _, _. exact Hrun.
Qed.

(** X14: the allow-list end to end.  When the file parses, a point of
    interest that is neither a building, nor addressed, nor a street let in
    by a streets file passes the filter of the run exactly when its encoded
    id stands on some line of the file. *)
Theorem allow_list_decides_poi (nodesFile content : string)
    (streetsFeaturesFile : option string) w :
  nodesFile ≠ EmptyString →
  w_text w !! nodesFile = Some content →
  Forall (λ line, line_rejected line = false) (getlines content) →
  ∃ nodeIds,
    nodes_stage (Some nodesFile) w = (Returned (true, nodeIds), w)
    ∧ ∀ fb,
        IsBuilding fb = false → HasHouse fb = false →
        (is_Some streetsFeaturesFile → IsStreet fb = false) →
        (geo_objects_filter nodeIds streetsFeaturesFile fb = true ↔
         IsPoi fb = true
         ∧ ∃ line, line ∈ getlines content
                   ∧ line_id line = Some (GetEncodedId (GetMostGenericOsmId fb))).
Proof.
  intros Hname Hfile Hall. exists (parsed_ids (getlines content)). split.
  { unfold nodes_stage, ParseNodes. rewrite bool_decide_eq_false_2 by done.
    rewrite Hfile, ParseNodes_loop_accepted by done.
    by rewrite (right_id_L ∅ (∪)). }
  intros fb Hb Hh Hs. rewrite <- elem_of_parsed_ids.
  unfold geo_objects_filter, featuresFilter. rewrite Hb, Hh. simpl.
  assert (Hstreet : bool_decide (is_Some streetsFeaturesFile) && IsStreet fb = false).
  { case_bool_decide; simpl; [by apply Hs|done]. }
  rewrite Hstreet.
  destruct (decide (parsed_ids (getlines content) = ∅)) as [Hempty|Hempty].
  - rewrite Hempty. rewrite bool_decide_eq_true_2 by done. simpl.
    split; [done|]. intros [_ Hin]. by apply not_elem_of_empty in Hin.
  - rewrite (bool_decide_eq_false_2 _ Hempty). destruct (IsPoi fb); simpl.
    + rewrite bool_decide_eq_true. split; [done|by intros [_ ?]].
    + split; [done|by intros [? _]].
Qed.

(** X15: the filter only grows with its inputs.  A feature accepted with
    some allow-list and streets setting is still accepted with a larger
    allow-list, and with a streets file where there was none. *)
Theorem geo_objects_filter_monotone nodeIds (nodeIds' : gset N)
    (streetsFeaturesFile streetsFeaturesFile' : option string) fb :
  nodeIds ⊆ nodeIds' →
  (is_Some streetsFeaturesFile → is_Some streetsFeaturesFile') →
  geo_objects_filter nodeIds streetsFeaturesFile fb = true →
  geo_objects_filter nodeIds' streetsFeaturesFile' fb = true.
Proof.
  intros Hids Hstreets. unfold geo_objects_filter, featuresFilter.
  destruct (IsBuilding fb); [done|]. destruct (HasHouse fb); [done|]. simpl.
  destruct (bool_decide (is_Some streetsFeaturesFile) && IsStreet fb) eqn:Hst.
  { apply andb_true_iff in Hst as [Hsome ->]. apply bool_decide_eq_true_1 in Hsome.
    rewrite (bool_decide_eq_true_2 _ (Hstreets Hsome)). done. }
  intros Hpoi.
  destruct (negb (bool_decide (nodeIds = ∅)) && IsPoi fb) eqn:Hallow; [|done].
  apply andb_true_iff in Hallow as [_ ->].
  apply bool_decide_eq_true_1 in Hpoi. apply Hids in Hpoi.
  destruct (bool_decide (is_Some streetsFeaturesFile') && IsStreet fb); [done|].
  rewrite bool_decide_eq_false_2.
  - simpl. by apply bool_decide_eq_true_2.
  - intros Hempty. rewrite Hempty in Hpoi. by apply not_elem_of_empty in Hpoi.
Qed.

End AllowListMore.

(** ** Reading lines *)

Lemma getlines_line (line rest : string) :
  has_newline line = false →
  getlines (line +:+ String newline rest) = line :: getlines rest.
Proof.
  induction line as [|c line IH]; simpl.
  { by intros _. }
  intros Hnl. apply orb_false_iff in Hnl as [Hc Hline].
  rewrite Hc. by rewrite IH.
Qed.

(** X16: the lines read back from a text are the lines it was written
    from, when every line is written with its terminator and holds no
    terminator itself; a last empty line is read back as well. *)
Theorem getlines_terminated (lines : list string) :
  Forall (λ line, has_newline line = false) lines →
  getlines (terminated lines) = lines.
Proof.
  induction 1 as [|line rest Hline _ IH]; simpl; [done|].
  by rewrite getlines_line, IH.
Qed.

(** X17: no line handed to the parser holds a line terminator, whatever
    the text. *)
Theorem getlines_no_newline (s : string) :
  Forall (λ line, has_newline line = false) (getlines s).
Proof.
  induction s as [|c s IH]; simpl; [constructor|].
  case_bool_decide as Hc.
  - by constructor.
  - destruct (getlines s) as [|line rest].
    + repeat constructor. simpl. by rewrite bool_decide_eq_false_2.
    + apply Forall_cons in IH as [Hline Hrest]. constructor; [|done].
      simpl. by rewrite bool_decide_eq_false_2.
Qed.

(** ** The borders collector *)

Section BordersMore.
Context `{E : Env} {BA : BordersApi}.

Implicit Types (c : BordersCollector) (fb : FeatureBuilder).

Lemma Collect_not_area c fb : IsArea fb = false → Collect c fb = Ok c.
Proof. intros Hkind. unfold Collect. by rewrite Hkind. Qed.

Lemma Collect_area c fb :
  IsArea fb = true → border_bytes fb ≠ [] →
  Collect c fb
  = Ok (mkBordersCollector (m_bordersWriter c ++ border_record fb) (border_bytes fb)).
Proof.
  intros Hkind Hbytes. unfold Collect, WriteFeatureData. rewrite Hkind.
  fold (border_bytes fb). rewrite bool_decide_eq_true_2; [done|].
  by destruct (border_bytes fb).
Qed.

Lemma Collect_empty c fb :
  IsArea fb = true → border_bytes fb = [] → Collect c fb = CheckFailed.
Proof.
  intros Hkind Hbytes. unfold Collect, WriteFeatureData. rewrite Hkind.
  fold (border_bytes fb). rewrite Hbytes. done.
Qed.

Lemma collect_stream_prefix (pre rest : list FeatureBuilder) c :
  Forall (λ fb, IsArea fb = true → border_bytes fb ≠ []) pre →
  ∃ c',
    m_bordersWriter c'
    = m_bordersWriter c
      ++ concat (border_record <$> filter (λ fb, IsArea fb = true) pre)
    ∧ collect_stream c (pre ++ rest) = collect_stream c' rest.
Proof.
  revert c. induction pre as [|fb pre IH]; intros c Hall.
  { exists c. split; [by rewrite app_nil_r|done]. }
  apply Forall_cons in Hall as [Hfb Hpre].
  rewrite filter_cons. cbn [app collect_stream].
  destruct (IsArea fb) eqn:Hkind.
  - rewrite decide_True by done.
    rewrite (Collect_area c fb Hkind (Hfb eq_refl)).
    destruct (IH (mkBordersCollector (m_bordersWriter c ++ border_record fb)
                                     (border_bytes fb)) Hpre) as (c' & Hw & Hrun).
    exists c'. split; [|done]. rewrite Hw. simpl. by rewrite app_assoc.
  - rewrite decide_False by done. rewrite (Collect_not_area c fb Hkind).
    destruct (IH c Hpre) as (c' & Hw & Hrun). by exists c'.
Qed.

(** X18: when every area feature of the file has a non-empty border
    serialisation, [GenerateBorders] returns [true] and the borders section
    holds, in stream order, one record per area feature (the size of its
    serialisation, then the serialisation) and nothing for the other
    features. *)
Theorem GenerateBorders_records (outPath featuresFile : string) (w : World)
    (stream : list FeatureBuilder) :
  w_features w !! featuresFile = Some stream →
  Forall (λ fb, IsArea fb = true → border_bytes fb ≠ []) stream →
  GenerateBorders outPath featuresFile w
  = (Returned true,
     concat (border_record <$> filter (λ fb, IsArea fb = true) stream)).
Proof.
  intros Hfile Hall. unfold GenerateBorders. rewrite Hfile.
  destruct (collect_stream_prefix stream [] NewBordersCollector Hall) as (c' & Hw & Hrun).
  rewrite app_nil_r in Hrun. rewrite Hrun. simpl. by rewrite Hw.
Qed.

(** X19: the first area feature whose border serialisation is empty stops
    the run on the check of [WriteFeatureData]: the process aborts, the
    records of the area features before it are written, nothing of it or
    of what follows is. *)
Theorem GenerateBorders_empty_feature (outPath featuresFile : string) (w : World)
    (pre post : list FeatureBuilder) fb :
  w_features w !! featuresFile = Some (pre ++ fb :: post) →
  Forall (λ fb', IsArea fb' = true → border_bytes fb' ≠ []) pre →
  IsArea fb = true →
  border_bytes fb = [] →
  GenerateBorders outPath featuresFile w
  = (Aborted, concat (border_record <$> filter (λ fb', IsArea fb' = true) pre)).
Proof.
  intros Hfile Hall Hkind Hbytes. unfold GenerateBorders. rewrite Hfile.
  destruct (collect_stream_prefix pre (fb :: post) NewBordersCollector Hall)
    as (c' & Hw & Hrun).
  rewrite Hrun. cbn [collect_stream]. rewrite (Collect_empty c' fb Hkind Hbytes).
  by rewrite Hw.
Qed.

End BordersMore.

(** ** The further properties on the executable instance *)

Module RefMoreFacts.
Import Ref RefBorders.

Lemma build_line_feature_witness :
  GetGeomType road = Line
  ∧ Build NewLocalityObjectBuilder road
    = (let obj := mkLocalityObject 4%N (Points [(0, 0); (1, 1); (2, 0)]%Z) in
       ([], Ok (mkBuilder (m_header NewLocalityObjectBuilder) obj [], Some obj))).
Proof.
  split; [reflexivity|].
  exact (eq_trans (build_line_feature NewLocalityObjectBuilder road eq_refl) eq_refl).
Defined.

Lemma build_keeps_builder_witness :
  ∃ b' obj,
    Build NewLocalityObjectBuilder square = ([], Ok (b', Some obj))
    ∧ m_header b' = m_header NewLocalityObjectBuilder
    ∧ m_localityObject b' = obj
    ∧ obj_id obj = 1%N.
Proof.
  eexists _, _. split; [reflexivity|].
  exact (build_keeps_builder NewLocalityObjectBuilder _ square [] (Some _) eq_refl).
Defined.

Lemma area_with_few_points_dropped_witness :
  GetGeomType sliver = Area
  ∧ NeedProcessTriangles (holder_before_strip NewLocalityObjectBuilder sliver) = true
  ∧ length (area_points sliver (simplified_points NewLocalityObjectBuilder sliver)) ≤ 2
  ∧ Build NewLocalityObjectBuilder sliver = ([], Ok (NewLocalityObjectBuilder, None)).
Proof.
  assert (Hlen : length (area_points sliver
                           (simplified_points NewLocalityObjectBuilder sliver)) ≤ 2).
  { vm_compute. repeat constructor. }
  split; [reflexivity|]. split; [reflexivity|]. split; [exact Hlen|].
  exact (area_with_few_points_dropped NewLocalityObjectBuilder sliver eq_refl eq_refl Hlen).
Defined.

Lemma area_holder_has_triangles_witness :
  GetGeomType square = Area
  ∧ ∃ holder,
      MakeGeometryHolder NewLocalityObjectBuilder square = ([], Some holder)
      ∧ NeedProcessTriangles holder = false.
Proof.
  split; [reflexivity|]. eexists. split; [reflexivity|].
  exact (proj1 (area_holder_has_triangles NewLocalityObjectBuilder square [] _
                  eq_refl eq_refl)).
Defined.

Lemma build_abort_condition_witness :
  GetGeomType (poi 20) = Point
  ∧ (Build NewLocalityObjectBuilder (poi 20)).2 ≠ CheckFailed
  ∧ GetGeomType square = Area
  ∧ ((Build NewLocalityObjectBuilder square).2 = CheckFailed ↔
     ∃ holder, (MakeGeometryHolder NewLocalityObjectBuilder square).2 = Some holder
               ∧ length (m_innerTrg holder) < 3).
Proof.
  split; [reflexivity|]. split.
  { exact (proj1 (build_abort_condition (E:=env) NewLocalityObjectBuilder (poi 20))
             (or_introl eq_refl)). }
  split; [reflexivity|].
  exact (proj2 (build_abort_condition (E:=env) NewLocalityObjectBuilder square) eq_refl).
Defined.

Lemma reused_builder_builds_alike_witness :
  ∃ b' covering',
    (feed (IB:=index_builder) (λ _, true) (NewLocalityObjectBuilder, []) [square]).2
    = Ok (b', covering')
    ∧ b' ≠ NewLocalityObjectBuilder
    ∧ (Build b' (poi 20)).1 = (Build NewLocalityObjectBuilder (poi 20)).1.
Proof.
  eexists _, _. split; [reflexivity|]. split; [discriminate|].
  exact (proj1 (reused_builder_builds_alike (IB:=index_builder) (λ _, true) [] [square]
                  _ _ (poi 20) eq_refl)).
Defined.

Lemma run_processor_log_witness :
  ∃ log covering,
    run_processor (IB:=index_builder) (λ _, true) [square; collinear; road]
    = (log, Ok covering)
    ∧ log = [triangles_warning NewLocalityObjectBuilder collinear].
Proof.
  eexists _, _. split; [reflexivity|].
  exact (run_processor_log (IB:=index_builder) (λ _, true) [square; collinear; road]
           _ _ eq_refl).
Defined.

Lemma allow_text_accepted :
  Forall (λ line, line_rejected line = false) (getlines allow_text).
Proof. repeat constructor. Qed.

Lemma ParseNodes_accepts_witness :
  "allow.txt" ≠ EmptyString
  ∧ w_text world_borders !! "allow.txt" = Some allow_text
  ∧ Forall (λ line, line_rejected line = false) (getlines allow_text)
  ∧ ParseNodes "allow.txt" ∅ world_borders
    = (Returned (true, parsed_ids (getlines allow_text) ∪ ∅), world_borders).
Proof.
  assert (Hname : "allow.txt" ≠ EmptyString) by discriminate.
  assert (Hfile : w_text world_borders !! "allow.txt" = Some allow_text) by reflexivity.
  split; [exact Hname|]. split; [exact Hfile|]. split; [exact allow_text_accepted|].
  exact (proj1 (ParseNodes_accepts "allow.txt" allow_text ∅ world_borders
                  Hname Hfile allow_text_accepted)).
Defined.

Lemma ParseNodes_flag_witness :
  "allow.txt" ≠ EmptyString
  ∧ w_text world_borders !! "allow.txt" = Some allow_text
  ∧ ∃ nodeIds' w',
      ParseNodes "allow.txt" ∅ world_borders
      = (Returned
           (bool_decide (Forall (λ line, line_rejected line = false) (getlines allow_text)),
            nodeIds'),
         w').
Proof.
  assert (Hname : "allow.txt" ≠ EmptyString) by discriminate.
  assert (Hfile : w_text world_borders !! "allow.txt" = Some allow_text) by reflexivity.
  split; [exact Hname|]. split; [exact Hfile|].
  exact (ParseNodes_flag "allow.txt" allow_text ∅ world_borders Hname Hfile).
Defined.

Lemma allow_list_decides_poi_witness :
  "allow.txt" ≠ EmptyString
  ∧ w_text world_borders !! "allow.txt" = Some allow_text
  ∧ Forall (λ line, line_rejected line = false) (getlines allow_text)
  ∧ ∃ nodeIds,
      nodes_stage (Some "allow.txt") world_borders = (Returned (true, nodeIds), world_borders)
      ∧ geo_objects_filter nodeIds None (poi 20) = true.
Proof.
  assert (Hname : "allow.txt" ≠ EmptyString) by discriminate.
  assert (Hfile : w_text world_borders !! "allow.txt" = Some allow_text) by reflexivity.
  split; [exact Hname|]. split; [exact Hfile|]. split; [exact allow_text_accepted|].
  destruct (allow_list_decides_poi "allow.txt" allow_text None
              world_borders Hname Hfile allow_text_accepted) as (nodeIds & Hstage & Hpoi).
  exists nodeIds. split; [exact Hstage|].
  apply (Hpoi (poi 20) eq_refl eq_refl).
  - intros [x Hx]. discriminate Hx.
  - split; [reflexivity|]. exists "20 extra". split; [|reflexivity].
    apply (list_elem_of_lookup_2 _ 1). reflexivity.
Defined.

Lemma geo_objects_filter_monotone_witness :
  ({[10%N]} : gset N) ⊆ {[10; 20]}%N
  ∧ geo_objects_filter {[10%N]} None (poi 10) = true
  ∧ geo_objects_filter {[10; 20]}%N (Some "data/streets.dat") (poi 10) = true.
Proof.
  assert (Hsub : ({[10%N]} : gset N) ⊆ {[10; 20]}%N) by apply union_subseteq_l.
  assert (Hacc : geo_objects_filter {[10%N]} None (poi 10) = true)
    by (vm_compute; reflexivity).
  split; [exact Hsub|]. split; [exact Hacc|].
  refine (geo_objects_filter_monotone {[10%N]} {[10; 20]}%N None (Some "data/streets.dat")
            (poi 10) Hsub _ Hacc).
  intros [x Hx]. discriminate Hx.
Defined.

Lemma getlines_terminated_witness :
  Forall (λ line, has_newline line = false) ["10"; ""; "30"]
  ∧ getlines (terminated ["10"; ""; "30"]) = ["10"; ""; "30"].
Proof.
  assert (Hlines : Forall (λ line, has_newline line = false) ["10"; ""; "30"])
    by (repeat constructor).
  split; [exact Hlines|]. exact (getlines_terminated _ Hlines).
Defined.

Lemma geo_stream_serialises :
  Forall (λ fb, IsArea fb = true → border_bytes fb ≠ []) [square; road; sliver].
Proof. repeat constructor; intros _; discriminate. Qed.

Lemma GenerateBorders_records_witness :
  w_features world_borders !! "data/geo.dat" = Some [square; road; sliver]
  ∧ Forall (λ fb, IsArea fb = true → border_bytes fb ≠ []) [square; road; sliver]
  ∧ GenerateBorders "out.borders" "data/geo.dat" world_borders
    = (Returned true, border_record square ++ border_record sliver).
Proof.
  assert (Hfile : w_features world_borders !! "data/geo.dat" = Some [square; road; sliver])
    by reflexivity.
  split; [exact Hfile|]. split; [exact geo_stream_serialises|].
  exact (eq_trans (GenerateBorders_records "out.borders" "data/geo.dat" world_borders _
                     Hfile geo_stream_serialises) eq_refl).
Defined.

Lemma GenerateBorders_empty_feature_witness :
  w_features world_borders !! "data/bad.dat" = Some ([square] ++ hollow :: [sliver])
  ∧ IsArea hollow = true
  ∧ border_bytes hollow = []
  ∧ GenerateBorders "out.borders" "data/bad.dat" world_borders
    = (Aborted, border_record square).
Proof.
  assert (Hfile : w_features world_borders !! "data/bad.dat"
                  = Some ([square] ++ hollow :: [sliver])) by reflexivity.
  assert (Hpre : Forall (λ fb, IsArea fb = true → border_bytes fb ≠ []) [square]).
  { repeat constructor. intros _. discriminate. }
  split; [exact Hfile|]. split; [reflexivity|]. split; [reflexivity|].
  exact (eq_trans (GenerateBorders_empty_feature "out.borders" "data/bad.dat" world_borders
                     [square] [sliver] hollow Hfile Hpre eq_refl eq_refl) eq_refl).
Defined.

Lemma build_area_feature_witness :
  GetGeomType square = Area
  ∧ ∃ b' obj holder,
      Build NewLocalityObjectBuilder square = ([], Ok (b', Some obj))
      ∧ MakeGeometryHolder NewLocalityObjectBuilder square = ([], Some holder)
      ∧ m_pointsBuffer b' = m_innerTrg holder.
Proof.
  split; [reflexivity|].
  destruct (build_area_feature (E:=env) NewLocalityObjectBuilder _ square [] _
              eq_refl eq_refl) as (holder & Hholder & _ & _ & _ & Hbuffer).
  eexists _, _, holder. split; [reflexivity|]. split; [exact Hholder|exact Hbuffer].
Defined.

Lemma hull_fallback_used_witness :
  (direct_attempt NewLocalityObjectBuilder bowtie).1.1 = false
  ∧ (hull_attempt NewLocalityObjectBuilder bowtie).1.1 = true
  ∧ MakeGeometryHolder NewLocalityObjectBuilder bowtie
    = ([], Some (hull_attempt NewLocalityObjectBuilder bowtie).2)
  ∧ m_innerTrg (hull_attempt NewLocalityObjectBuilder bowtie).2
    = [(0, 0); (2, 0); (2, 2); (0, 2)]%Z.
Proof.
  assert (Hlen : 2 < length (area_points bowtie
                               (simplified_points NewLocalityObjectBuilder bowtie))).
  { vm_compute. repeat constructor. }
  split; [reflexivity|]. split; [reflexivity|]. split; [|reflexivity].
  refine (hull_fallback_used (E:=env) NewLocalityObjectBuilder bowtie eq_refl _ eq_refl Hlen
            eq_refl eq_refl eq_refl).
  discriminate.
Defined.

End RefMoreFacts.
